(** * API traffic logger proxy: a model of [claude-api-logger/server.py]

    The development embeds the request handler of the proxy
    ([ProxyHandler.proxy_request], [do_GET], [do_POST], [do_OPTIONS]) and the
    log writer ([get_log_file], [log_request]) as functions over an explicit
    world state, with Python exceptions carried by a result type.

    Library calls whose code is not part of the repository ([json.loads],
    [str.lower], [int], [float.__repr__], [str] on a parsed value) are
    fields of the class [PyLib]; the behaviour of the outside world (clock
    readings, the upstream API, failures of the file system) is a record
    [Env].  [print] raises when stdout cannot encode its line and
    [send_header] when Latin-1 cannot encode the header.  Two things are
    taken for granted: the connection to the caller stays open, so that
    writing to it does not fail, and the texts of the exceptions that the
    HTTP client and the file system raise can be written to stdout.

    The file has three parts: the model, the properties of the handler and
    of the log writer, and their instances on concrete requests. *)

From Stdlib Require Import ZArith NArith List Strings.String Strings.Ascii Strings.Byte Lia.
From Stdlib Require Import DecimalString.
From Stdlib Require Floats.SpecFloat.
From stdpp Require Import base option list gmap.

Import ListNotations.
Local Open Scope Z_scope.
#[local] Set Warnings "-register-all".

(** ** Python values *)

(** A Python [str] is a sequence of Unicode code points; slicing and [len]
    count code points, not bytes. *)
Definition str := list N.

(** A Python [bytes] object. *)
Definition bytes := list byte.

#[global] Instance byte_eq_decision : EqDecision byte := Byte.byte_eq_dec.

(** String literals of the source, as code points. *)
Definition u (lit : string) : str :=
  map N_of_ascii (list_ascii_of_string lit).

(** The exception classes that occur.  [KeyboardInterrupt] stands for the
    classes that derive from [BaseException] only; every other one derives
    from [Exception]. *)
Inductive exn_class :=
| JSONDecodeError
| UnicodeDecodeError
| UnicodeEncodeError
| RecursionError
| ValueError
| AttributeError
| TypeError
| KeyError
| IndexError
| OSError
| TransportError
| KeyboardInterrupt.

(** An exception object: its class and what [str(e)] returns. *)
Record exn := Exn { exn_cls : exn_class; exn_str : str }.

Definition is_Exception (e : exn) : bool :=
  match exn_cls e with
  | KeyboardInterrupt => false
  | _ => true
  end.

Definition is_JSONDecodeError (e : exn) : bool :=
  match exn_cls e with
  | JSONDecodeError => true
  | _ => false
  end.

(** The outcome of evaluating a Python expression. *)
Inductive result (A : Type) :=
| Ok (a : A)
| Raise (e : exn).
Arguments Ok {A} a.
Arguments Raise {A} e.

(** What [json.loads] builds: [None], [bool], [int], [float], [str], [list]
    and [dict] (keys in insertion order, each key once). *)
Inductive json :=
| JNull
| JBool (b : bool)
| JInt (z : Z)
| JFloat (f : SpecFloat.spec_float)
| JStr (s : str)
| JArr (l : list json)
| JObj (d : list (str * json)).

(** [type(v).__name__] *)
Definition type_name (v : json) : str :=
  match v with
  | JNull => u "NoneType"
  | JBool _ => u "bool"
  | JInt _ => u "int"
  | JFloat _ => u "float"
  | JStr _ => u "str"
  | JArr _ => u "list"
  | JObj _ => u "dict"
  end.

(** [bool(v)] *)
Definition truthy (v : json) : bool :=
  match v with
  | JNull => false
  | JBool b => b
  | JInt z => negb (z =? 0)
  | JFloat (SpecFloat.S754_zero _) => false
  | JFloat _ => true
  | JStr s => negb (bool_decide (s = []))
  | JArr l => match l with [] => false | _ => true end
  | JObj d => match d with [] => false | _ => true end
  end.

(** [d.get(k, default)] on a [dict]. *)
Fixpoint dict_get (d : list (str * json)) (k : str) (default : json) : json :=
  match d with
  | [] => default
  | (k', v) :: d' => if bool_decide (k' = k) then v else dict_get d' k default
  end.

(** [d[k] = v] on a [dict]: an existing key keeps its place. *)
Fixpoint dict_set {V : Type} (d : list (str * V)) (k : str) (v : V)
  : list (str * V) :=
  match d with
  | [] => [(k, v)]
  | (k', v') :: d' =>
      if bool_decide (k' = k) then (k', v) :: d' else (k', v') :: dict_set d' k v
  end.

(** [str(n)] for an [int]. *)
Definition str_of_Z (n : Z) : str :=
  u (NilZero.string_of_int (Z.to_int n)).

Definition no_attribute_get (v : json) : exn :=
  Exn AttributeError
      (u "'" ++ type_name v ++ u "' object has no attribute 'get'").

(** [v.get(k, default)]: only a [dict] has the method. *)
Definition py_get (v : json) (k : str) (default : json) : result json :=
  match v with
  | JObj d => Ok (dict_get d k default)
  | _ => Raise (no_attribute_get v)
  end.

(** [v[-1]] *)
Definition py_last (v : json) : result json :=
  match v with
  | JArr l =>
      match last l with
      | Some x => Ok x
      | None => Raise (Exn IndexError (u "list index out of range"))
      end
  | JStr s =>
      match last s with
      | Some c => Ok (JStr [c])
      | None => Raise (Exn IndexError (u "string index out of range"))
      end
  | JObj _ => Raise (Exn KeyError (u "-1"))
  | _ => Raise (Exn TypeError
                  (u "'" ++ type_name v ++ u "' object is not subscriptable"))
  end.

(** [v == "..."] against a string literal. *)
Definition eq_str (v : json) (lit : str) : bool :=
  match v with
  | JStr s => bool_decide (s = lit)
  | _ => false
  end.

(** [[c.get("text", "") for c in content if c.get("type") == "text"]] *)
Fixpoint text_parts_of (content : list json) : result (list json) :=
  match content with
  | [] => Ok []
  | c :: rest =>
      match py_get c (u "type") JNull with
      | Raise e => Raise e
      | Ok ty =>
          if eq_str ty (u "text") then
            match py_get c (u "text") (JStr []) with
            | Raise e => Raise e
            | Ok t =>
                match text_parts_of rest with
                | Raise e => Raise e
                | Ok ts => Ok (t :: ts)
                end
            end
          else text_parts_of rest
      end
  end.

(** [sep.join(parts)]: every item has to be a [str]. *)
Fixpoint str_join_from (i : nat) (sep : str) (parts : list json) : result str :=
  match parts with
  | [] => Ok []
  | p :: rest =>
      match p with
      | JStr s =>
          match rest with
          | [] => Ok s
          | _ =>
              match str_join_from (S i) sep rest with
              | Ok r => Ok (s ++ sep ++ r)
              | Raise e => Raise e
              end
          end
      | _ =>
          Raise (Exn TypeError
                   (u "sequence item " ++ str_of_Z (Z.of_nat i)
                      ++ u ": expected str instance, " ++ type_name p
                      ++ u " found"))
      end
  end.

Definition str_join (sep : str) (parts : list json) : result str :=
  str_join_from 0 sep parts.

(** ** Library functions that are not code of the repository *)

Class PyLib := {
  (** [json.loads(b)] on a [bytes] object *)
  json_loads : bytes -> result json;
  (** [s.lower()] *)
  str_lower : str -> str;
  (** [int(s)] on a [str] *)
  int_of_str : str -> result Z;
  (** [float.__repr__] on a finite number *)
  float_repr : SpecFloat.spec_float -> str;
  (** [str(v)], as an f-string formats a value *)
  str_of_json : json -> str
}.

(** ** [json.dumps] with its default arguments *)

Definition hex_digit (n : N) : N :=
  (if n <? 10 then 48 + n else 87 + n)%N.

(** ['\\u{0:04x}'.format(n)] *)
Definition esc4 (n : N) : str :=
  [92; 117; hex_digit (n / 4096 mod 16); hex_digit (n / 256 mod 16);
   hex_digit (n / 16 mod 16); hex_digit (n mod 16)]%N.

(** The replacement of one character under [ensure_ascii=True]. *)
Definition escape_char (c : N) : str :=
  (if c =? 34 then [92; 34]
   else if c =? 92 then [92; 92]
   else if c =? 10 then [92; 110]
   else if c =? 13 then [92; 114]
   else if c =? 9 then [92; 116]
   else if c =? 12 then [92; 102]
   else if c =? 8 then [92; 98]
   else if (32 <=? c) && (c <=? 126) then [c]
   else if c <? 65536 then esc4 c
   else
     let n := c - 65536 in
     esc4 (N.lor 55296 (N.land (N.shiftr n 10) 1023))
       ++ esc4 (N.lor 56320 (N.land n 1023)))%N.

Definition json_string (s : str) : str :=
  [34%N] ++ flat_map escape_char s ++ [34%N].

Definition floatstr `{PyLib} (f : SpecFloat.spec_float) : str :=
  match f with
  | SpecFloat.S754_nan => u "NaN"
  | SpecFloat.S754_infinity false => u "Infinity"
  | SpecFloat.S754_infinity true => u "-Infinity"
  | _ => float_repr f
  end.

Fixpoint json_dumps `{PyLib} (v : json) : str :=
  match v with
  | JNull => u "null"
  | JBool true => u "true"
  | JBool false => u "false"
  | JInt z => str_of_Z z
  | JFloat f => floatstr f
  | JStr s => json_string s
  | JArr l =>
      u "["
        ++ (fix items (l : list json) : str :=
              match l with
              | [] => []
              | x :: r =>
                  match r with
                  | [] => json_dumps x
                  | _ => json_dumps x ++ u ", " ++ items r
                  end
              end) l
        ++ u "]"
  | JObj d =>
      u "{"
        ++ (fix items (d : list (str * json)) : str :=
              match d with
              | [] => []
              | (k, x) :: r =>
                  match r with
                  | [] => json_string k ++ u ": " ++ json_dumps x
                  | _ => json_string k ++ u ": " ++ json_dumps x ++ u ", " ++ items r
                  end
              end) d
        ++ u "}"
  end.

(** ** [str.encode()]: UTF-8, strict *)

Definition byte_of (n : N) : byte := default x00 (Byte.of_N n).

Definition utf8_char (c : N) : result bytes :=
  (if c <? 128 then Ok [byte_of c]
   else if c <? 2048 then Ok [byte_of (192 + c / 64); byte_of (128 + c mod 64)]
   else if (55296 <=? c) && (c <=? 57343) then
     Raise (Exn UnicodeEncodeError (u "surrogates not allowed"))
   else if c <? 65536 then
     Ok [byte_of (224 + c / 4096); byte_of (128 + c / 64 mod 64);
         byte_of (128 + c mod 64)]
   else
     Ok [byte_of (240 + c / 262144); byte_of (128 + c / 4096 mod 64);
         byte_of (128 + c / 64 mod 64); byte_of (128 + c mod 64)])%N.

Fixpoint encode (s : str) : result bytes :=
  match s with
  | [] => Ok []
  | c :: r =>
      match utf8_char c with
      | Raise e => Raise e
      | Ok b =>
          match encode r with
          | Raise e => Raise e
          | Ok br => Ok (b ++ br)
          end
      end
  end.

(** ** Encoding errors

    [sys.stdout] encodes as UTF-8; its error handler is [strict] or, in
    the C locale and in UTF-8 mode, [surrogateescape] (the choice is the
    environment's).  [send_header] encodes the header line as Latin-1,
    strict.  A character the encoder rejects raises a
    [UnicodeEncodeError]. *)

Inductive error_handler := Strict | SurrogateEscape.

(** A surrogate code point, which UTF-8 does not encode. *)
Definition is_surrogate (c : N) : bool := ((55296 <=? c) && (c <=? 57343))%N.

(** The surrogates U+DC80 to U+DCFF, which [surrogateescape] writes as
    the bytes 0x80 to 0xFF. *)
Definition escapable (c : N) : bool := ((56448 <=? c) && (c <=? 56575))%N.

(** The characters stdout rejects. *)
Definition stdout_rejects (errors : error_handler) (c : N) : bool :=
  is_surrogate c
  && match errors with
     | Strict => true
     | SurrogateEscape => negb (escapable c)
     end.

(** A character outside Latin-1. *)
Definition not_latin1 (c : N) : bool := (255 <? c)%N.

(** How the text of the error writes the character: with two, four or
    eight hexadecimal digits. *)
Definition escaped (c : N) : str :=
  (if c <=? 255 then [92; 120; hex_digit (c / 16 mod 16); hex_digit (c mod 16)]
   else if c <=? 65535 then esc4 c
   else [92; 85; hex_digit (c / 268435456 mod 16); hex_digit (c / 16777216 mod 16);
         hex_digit (c / 1048576 mod 16); hex_digit (c / 65536 mod 16);
         hex_digit (c / 4096 mod 16); hex_digit (c / 256 mod 16);
         hex_digit (c / 16 mod 16); hex_digit (c mod 16)])%N.

(** The number of characters at the head of [text] that belong to the
    run the encoder reports. *)
Fixpoint run_length (joins : N -> bool) (text : str) : nat :=
  match text with
  | [] => 0
  | c :: rest => if joins c then S (run_length joins rest) else 0
  end.

(** The first character of [text] that the encoder rejects, from position
    [i] on: its position, the character, and the position after the run
    of characters the encoder reports with it (those that follow it
    without a gap and that the codec does not encode). *)
Fixpoint first_bad (bad joins : N -> bool) (text : str) (i : nat)
    : option (nat * N * nat) :=
  match text with
  | [] => None
  | c :: rest =>
      if bad c then Some (i, c, S i + run_length joins rest)%nat
      else first_bad bad joins rest (S i)
  end.

(** [str(UnicodeEncodeError(encoding, text, start, stop, reason))] *)
Definition UnicodeEncodeError_str (encoding : str) (c : N) (start stop : nat)
    (reason : str) : str :=
  u "'" ++ encoding ++ u "' codec can't encode "
    ++ (if (stop =? S start)%nat
        then u "character '" ++ escaped c ++ u "' in position "
               ++ str_of_Z (Z.of_nat start)
        else u "characters in position " ++ str_of_Z (Z.of_nat start) ++ u "-"
               ++ str_of_Z (Z.of_nat stop - 1))
    ++ u ": " ++ reason.

(** The exception that encoding [text] raises, if any. *)
Definition encode_error (encoding : str) (bad joins : N -> bool) (reason : str)
    (text : str) : option exn :=
  match first_bad bad joins text 0 with
  | None => None
  | Some (start, c, stop) =>
      Some (Exn UnicodeEncodeError
              (UnicodeEncodeError_str encoding c start stop reason))
  end.

(** Writing [line] to [sys.stdout]. *)
Definition stdout_error (errors : error_handler) (line : str) : option exn :=
  encode_error (u "utf-8") (stdout_rejects errors) is_surrogate
    (u "surrogates not allowed") line.

(** [("%s: %s\\r\\n" % (keyword, value)).encode('latin-1', 'strict')] in
    [send_header]. *)
Definition header_error (keyword value : str) : option exn :=
  encode_error (u "latin-1") not_latin1 not_latin1
    (u "ordinal not in range(256)")
    (keyword ++ u ": " ++ value ++ [13; 10]%N).

(** ** Dates *)

(** A naive [datetime], as [datetime.now()] returns it. *)
Record datetime := {
  year : N; month : N; day : N;
  hour : N; minute : N; second : N; microsecond : N
}.

(** The ranges of a [datetime] whose year has four digits.  (The type
    allows the years 1 to 9999; below 1000 the C library decides whether
    [%Y] pads the year, and [datetime.now()] does not return such dates.) *)
Definition valid_datetime (d : datetime) : Prop :=
  (1000 <= year d <= 9999 /\ 1 <= month d <= 12 /\ 1 <= day d <= 31 /\
   hour d < 24 /\ minute d < 60 /\ second d < 60 /\ microsecond d < 1000000)%N.

Definition digit (n : N) : N := (48 + n mod 10)%N.

(** ["%02d"], ["%04d"] and ["%06d"] on a number that fits the width. *)
Definition pad2 (n : N) : str := [digit (n / 10); digit n]%N.
Definition pad4 (n : N) : str :=
  [digit (n / 1000); digit (n / 100); digit (n / 10); digit n]%N.
Definition pad6 (n : N) : str :=
  [digit (n / 100000); digit (n / 10000); digit (n / 1000);
   digit (n / 100); digit (n / 10); digit n]%N.

(** [d.strftime("%Y-%m-%d")]; the year is written with four digits. *)
Definition strftime_Ymd (d : datetime) : str :=
  pad4 (year d) ++ u "-" ++ pad2 (month d) ++ u "-" ++ pad2 (day d).

(** [d.strftime("%H:%M:%S")] *)
Definition strftime_HMS (d : datetime) : str :=
  pad2 (hour d) ++ u ":" ++ pad2 (minute d) ++ u ":" ++ pad2 (second d).

(** [d.isoformat()] *)
Definition isoformat (d : datetime) : str :=
  strftime_Ymd d ++ u "T" ++ strftime_HMS d
    ++ (if (microsecond d =? 0)%N then [] else u "." ++ pad6 (microsecond d)).

(** ** Paths *)

(** A [pathlib.Path], as its components. *)
Definition Path := list str.

(** [p / name], for a relative [name] of one component. *)
Definition path_div (p : Path) (name : str) : Path := p ++ [name].

(** ** The HTTP objects *)

(** The inbound request the handler object holds: [self.path] and
    [self.headers] (the body is still unread, in [rfile]). *)
Record ProxyHandler := {
  path : str;
  headers : list (str * str)
}.

(** The keyword arguments of [client.request]. *)
Module Request.
Record t := {
  method : str;
  url : str;
  headers : list (str * str);
  content : bytes
}.
End Request.

(** The [httpx.Response] object: [headers] is [response.headers.items()],
    [json] is the outcome of [response.json()]. *)
Module Response.
Record t := {
  status_code : Z;
  headers : list (str * str);
  content : bytes;
  text : str;
  json : result json
}.
End Response.

(** The calls the handler makes on the response side of the connection. *)
Inductive wire_event :=
| SendResponse (code : Z)
| SendHeader (keyword value : str)
| EndHeaders
| WfileWrite (data : bytes).

(** ** The world *)

Record World := {
  (** bytes of the inbound connection not yet read *)
  rfile : bytes;
  (** calls made on the response side, oldest first *)
  wire : list wire_event;
  (** contents of the files below the log directory *)
  fs : gmap Path str;
  (** upstream calls made, with their outcome, oldest first *)
  calls : list (Request.t * result Response.t);
  (** lines printed, oldest first *)
  stdout : list str;
  (** number of clock readings taken *)
  clock : nat
}.

(** What the outside world does. *)
Record Env := {
  (** [time.time()] at the n-th clock reading, as a whole number of
      microseconds: [int((t1 - t0) * 1000)] is then the quotient of the
      difference by 1000, truncated towards zero *)
  time_time : nat -> Z;
  (** [datetime.now()] at the n-th clock reading *)
  datetime_now : nat -> datetime;
  (** the outcome of the n-th upstream call *)
  client_request : nat -> Request.t -> result Response.t;
  (** the error, if any, that opening or writing a file raises *)
  append_fault : Path -> option exn;
  (** the error handler of [sys.stdout] *)
  stdout_errors : error_handler;
  (** the text of an exception that the HTTP client or the file system
      raises can be written to stdout *)
  client_request_text :
    forall n rq e,
      client_request n rq = Raise e -> stdout_error stdout_errors (exn_str e) = None;
  append_fault_text :
    forall p e,
      append_fault p = Some e -> stdout_error stdout_errors (exn_str e) = None
}.

(** The module-level configuration. *)
Record Config := {
  LOG_DIR : Path;
  PROJECT_NAME : str
}.

Definition ANTHROPIC_API_URL : str := u "https://api.anthropic.com".

(** ** Computations that change a state and may raise *)

Definition M (S A : Type) : Type := S -> result A * S.

#[global] Instance M_ret {S} : MRet (M S) :=
  fun A (a : A) (s : S) => (Ok a, s).

#[global] Instance M_bind {S} : MBind (M S) :=
  fun A B (f : A -> M S B) (m : M S A) (s : S) =>
    match m s with
    | (Ok a, s') => f a s'
    | (Raise e, s') => (Raise e, s')
    end.

(** An expression without effect on the state. *)
Definition lift {S A} (r : result A) : M S A := fun s => (r, s).

Definition modify {S} (f : S -> S) : M S unit := fun s => (Ok tt, f s).

(** [try: body / except <handles> as e: handler e] *)
Definition try_except {S A} (body : M S A) (handles : exn -> bool)
    (handler : exn -> M S A) : M S A :=
  fun s =>
    match body s with
    | (Raise e, s') => if handles e then handler e s' else (Raise e, s')
    | r => r
    end.

(** ** The local variables of the two parsing blocks *)

Record req_vars := {
  model : json;
  prompt_preview : str
}.

Record resp_vars := {
  response_preview : str;
  input_tokens : json;
  output_tokens : json
}.

Definition set_model (v : json) : M req_vars unit :=
  modify (fun s => {| model := v; prompt_preview := prompt_preview s |}).
Definition set_prompt_preview (p : str) : M req_vars unit :=
  modify (fun s => {| model := model s; prompt_preview := p |}).

Definition set_response_preview (p : str) : M resp_vars unit :=
  modify (fun s => {| response_preview := p;
                      input_tokens := input_tokens s;
                      output_tokens := output_tokens s |}).
Definition set_input_tokens (v : json) : M resp_vars unit :=
  modify (fun s => {| response_preview := response_preview s;
                      input_tokens := v;
                      output_tokens := output_tokens s |}).
Definition set_output_tokens (v : json) : M resp_vars unit :=
  modify (fun s => {| response_preview := response_preview s;
                      input_tokens := input_tokens s;
                      output_tokens := v |}).

(** [" ".join(text_parts)[:500]] over the text blocks of [content]. *)
Definition text_preview (content : list json) : result str :=
  match text_parts_of content with
  | Raise e => Raise e
  | Ok text_parts =>
      match str_join (u " ") text_parts with
      | Raise e => Raise e
      | Ok joined => Ok (take 500 joined)
      end
  end.

(** Lines 98-109: the body of the [try] that parses the request. *)
Definition parse_request_body `{PyLib} (request_body : bytes) : M req_vars unit :=
  request_data ← lift (json_loads request_body);
  m ← lift (py_get request_data (u "model") (JStr []));
  set_model m;;
  messages ← lift (py_get request_data (u "messages") (JArr []));
  if truthy messages then
    last_msg ← lift (py_last messages);
    content ← lift (py_get last_msg (u "content") (JStr []));
    match content with
    | JStr s => set_prompt_preview (take 500 s)
    | JArr l => p ← lift (text_preview l); set_prompt_preview p
    | _ => mret tt
    end
  else mret tt.

(** Lines 93-111: the values of [model] and [prompt_preview] after the
    block, or the exception that leaves it. *)
Definition parse_request `{PyLib} (request_body : bytes) : result req_vars :=
  let init := {| model := JStr []; prompt_preview := [] |} in
  match request_body with
  | [] => Ok init
  | _ =>
      match try_except (parse_request_body request_body) is_JSONDecodeError
                       (fun _ => mret tt) init with
      | (Ok _, vars) => Ok vars
      | (Raise e, _) => Raise e
      end
  end.

(** Lines 139-148: the body of the [try] that parses the response. *)
Definition parse_response_body (response : Response.t) : M resp_vars unit :=
  response_data ← lift (Response.json response);
  usage ← lift (py_get response_data (u "usage") (JObj []));
  i ← lift (py_get usage (u "input_tokens") (JInt 0));
  set_input_tokens i;;
  o ← lift (py_get usage (u "output_tokens") (JInt 0));
  set_output_tokens o;;
  content ← lift (py_get response_data (u "content") (JArr []));
  match content with
  | JArr (c :: l) => p ← lift (text_preview (c :: l)); set_response_preview p
  | _ => mret tt
  end.

(** Lines 135-150: the three variables after the block; the bare [except]
    handles every exception. *)
Definition parse_response (response : Response.t) : resp_vars :=
  let init := {| response_preview := []; input_tokens := JInt 0;
                 output_tokens := JInt 0 |} in
  snd (try_except (parse_response_body response) (fun _ => true)
         (fun _ =>
            set_response_preview
              (match Response.text response with
               | [] => []
               | t => take 500 t
               end))
         init).

(** ** The handler and the log writer *)

Section Proxy.
Context {lib : PyLib} (env : Env) (cfg : Config).

(** Line 36 *)
Definition PROJECT_LOG_DIR : Path := path_div (LOG_DIR cfg) (PROJECT_NAME cfg).

(** *** Operations on the world *)

Definition tick (w : World) : World :=
  {| rfile := rfile w; wire := wire w; fs := fs w; calls := calls w;
     stdout := stdout w; clock := S (clock w) |}.

(** [time.time()] *)
Definition time_now : M World Z :=
  fun w => (Ok (time_time env (clock w)), tick w).

(** [datetime.now()] *)
Definition now : M World datetime :=
  fun w => (Ok (datetime_now env (clock w)), tick w).

(** [self.rfile.read(n)]: the next [n] bytes of the connection, or all
    that is left of it. *)
Definition rfile_read (n : Z) : M World bytes :=
  fun w =>
    (Ok (take (Z.to_nat n) (rfile w)),
     {| rfile := drop (Z.to_nat n) (rfile w); wire := wire w; fs := fs w;
        calls := calls w; stdout := stdout w; clock := clock w |}).

(** The calls on the response side are recorded in order.  The connection
    to the caller stays open: writing to it does not fail. *)
Definition emit (ev : wire_event) : M World unit :=
  modify (fun w =>
    {| rfile := rfile w; wire := wire w ++ [ev]; fs := fs w;
       calls := calls w; stdout := stdout w; clock := clock w |}).

(** [self.send_response(code)]: the status line and the Server and Date
    headers, all ASCII, are buffered. *)
Definition send_response (code : Z) : M World unit := emit (SendResponse code).

(** [self.send_header(keyword, value)]: the header line is encoded as
    Latin-1 before it is buffered; a line that cannot be encoded raises
    and is not recorded. *)
Definition send_header (keyword value : str) : M World unit :=
  fun w =>
    match header_error keyword value with
    | Some e => (Raise e, w)
    | None => emit (SendHeader keyword value) w
    end.

Definition end_headers : M World unit := emit EndHeaders.
Definition wfile_write (data : bytes) : M World unit := emit (WfileWrite data).

(** [print(line)]: a line that stdout cannot encode raises and is not
    printed. *)
Definition print (line : str) : M World unit :=
  fun w =>
    match stdout_error (stdout_errors env) line with
    | Some e => (Raise e, w)
    | None =>
        (Ok tt,
         {| rfile := rfile w; wire := wire w; fs := fs w; calls := calls w;
            stdout := stdout w ++ [line]; clock := clock w |})
    end.

(** [with open(p, "a") as f: f.write(data)]: the file is created when it
    does not exist; when opening or writing fails, the exception is raised
    and the file is as before. *)
Definition file_append (p : Path) (data : str) : M World unit :=
  fun w =>
    match append_fault env p with
    | Some e => (Raise e, w)
    | None =>
        (Ok tt,
         {| rfile := rfile w; wire := wire w;
            fs := <[p := default [] (fs w !! p) ++ data]> (fs w);
            calls := calls w; stdout := stdout w; clock := clock w |})
    end.

(** [client.request(...)] inside [with httpx.Client(timeout=300.0)] *)
Definition upstream (rq : Request.t) : M World Response.t :=
  fun w =>
    let r := client_request env (length (calls w)) rq in
    (r,
     {| rfile := rfile w; wire := wire w; fs := fs w;
        calls := calls w ++ [(rq, r)]; stdout := stdout w;
        clock := clock w |}).

(** *** Lines 40-50 *)

Definition log_file_of (today : datetime) : Path :=
  path_div PROJECT_LOG_DIR (u "api-log-" ++ strftime_Ymd today ++ u ".jsonl").

Definition get_log_file : M World Path :=
  today ← now;
  mret (log_file_of today).

Definition log_request (data : json) : M World unit :=
  log_file ← get_log_file;
  file_append log_file (json_dumps data ++ [10%N]).

(** *** Headers *)

(** [self.headers.get(name)]: the first header whose name matches,
    whatever the case. *)
Fixpoint headers_get (hs : list (str * str)) (name : str) : option str :=
  match hs with
  | [] => None
  | (k, v) :: rest =>
      if bool_decide (str_lower k = str_lower name) then Some v
      else headers_get rest name
  end.

(** [key.lower() not in names] *)
Definition lower_not_in (names : list str) (key : str) : bool :=
  negb (bool_decide (str_lower key ∈ names)).

(** Lines 117-120 *)
Definition outbound_headers (hs : list (str * str)) : list (str * str) :=
  fold_left
    (fun acc kv =>
       if lower_not_in [u "host"; u "content-length"] kv.1
       then dict_set acc kv.1 kv.2 else acc)
    hs [].

(** Lines 171-173 *)
Definition relayed_headers (hs : list (str * str)) : list (str * str) :=
  filter
    (fun kv =>
       lower_not_in [u "transfer-encoding"; u "content-encoding";
                     u "content-length"] kv.1 = true)
    hs.

Fixpoint send_headers (hs : list (str * str)) : M World unit :=
  match hs with
  | [] => mret tt
  | (k, v) :: rest => send_header k v;; send_headers rest
  end.

(** *** Lines 84-184 *)

Definition log_entry_of (self : ProxyHandler) (timestamp : datetime)
    (rq : req_vars) (rs : resp_vars) (duration_ms status : Z) : json :=
  JObj [ (u "timestamp", JStr (isoformat timestamp));
         (u "project", JStr (PROJECT_NAME cfg));
         (u "model", model rq);
         (u "prompt_preview", JStr (prompt_preview rq));
         (u "response_preview", JStr (response_preview rs));
         (u "input_tokens", input_tokens rs);
         (u "output_tokens", output_tokens rs);
         (u "duration_ms", JInt duration_ms);
         (u "status_code", JInt status);
         (u "path", JStr (path self)) ].

Definition summary_line (t : datetime) (method : str) (self : ProxyHandler)
    (status duration_ms : Z) (rs : resp_vars) : str :=
  u "[" ++ strftime_HMS t ++ u "] " ++ method ++ u " " ++ path self
    ++ u " -> " ++ str_of_Z status ++ u " (" ++ str_of_Z duration_ms
    ++ u "ms, " ++ str_of_json (input_tokens rs) ++ u "+"
    ++ str_of_json (output_tokens rs) ++ u " tokens)".

(** Lines 114-120 and 125-130: the arguments of the upstream call. *)
Definition upstream_request (self : ProxyHandler) (method : str)
    (request_body : bytes) : Request.t :=
  {| Request.method := method;
     Request.url := ANTHROPIC_API_URL ++ path self;
     Request.headers := outbound_headers (headers self);
     Request.content := request_body |}.

(** Lines 123-176: the body of the outer [try]. *)
Definition forward_and_log (self : ProxyHandler) (method : str)
    (start_time : Z) (request_body : bytes) (rq : req_vars) : M World unit :=
  response ← upstream (upstream_request self method request_body);
  t1 ← time_now;
  let duration_ms := Z.quot (t1 - start_time) 1000 in
  let rs := parse_response response in
  timestamp ← now;
  log_request (log_entry_of self timestamp rq rs duration_ms
                 (Response.status_code response));;
  t ← now;
  print (summary_line t method self (Response.status_code response)
           duration_ms rs);;
  send_response (Response.status_code response);;
  send_headers (relayed_headers (Response.headers response));;
  send_header (u "Content-Length")
              (str_of_Z (Z.of_nat (length (Response.content response))));;
  end_headers;;
  wfile_write (Response.content response).

(** Lines 178-184: the handler of [except Exception as e]. *)
Definition proxy_error (e : exn) : M World unit :=
  print (u "[ERROR] Proxy error: " ++ exn_str e);;
  send_response 502;;
  send_header (u "Content-Type") (u "application/json");;
  end_headers;;
  error_response ← lift (encode (json_dumps (JObj [(u "error", JStr (exn_str e))])));
  wfile_write error_response.

(** Line 89: [int(self.headers.get("Content-Length", 0))] *)
Definition content_length_header (self : ProxyHandler) : result Z :=
  match headers_get (headers self) (u "Content-Length") with
  | Some v => int_of_str v
  | None => Ok 0
  end.

Definition proxy_request (self : ProxyHandler) (method : str) : M World unit :=
  start_time ← time_now;
  content_length ← lift (content_length_header self);
  request_body ←
    (if 0 <? content_length then rfile_read content_length else mret []);
  rq ← lift (parse_request request_body);
  try_except (forward_and_log self method start_time request_body rq)
             is_Exception proxy_error.

(** Lines 62-82 *)

Definition do_GET (self : ProxyHandler) : M World unit :=
  if bool_decide (path self = u "/health") then
    send_response 200;;
    send_header (u "Content-Type") (u "application/json");;
    end_headers;;
    body ← lift (encode (json_dumps
              (JObj [(u "status", JStr (u "ok"));
                     (u "project", JStr (PROJECT_NAME cfg))])));
    wfile_write body
  else proxy_request self (u "GET").

Definition do_POST (self : ProxyHandler) : M World unit :=
  proxy_request self (u "POST").

Definition do_OPTIONS (self : ProxyHandler) : M World unit :=
  send_response 200;;
  send_header (u "Access-Control-Allow-Origin") (u "*");;
  send_header (u "Access-Control-Allow-Methods") (u "GET, POST, OPTIONS");;
  send_header (u "Access-Control-Allow-Headers") (u "*");;
  end_headers.

End Proxy.

Arguments u : simpl never.
Arguments str_of_Z : simpl never.
Arguments json_dumps : simpl never.
Arguments json_string : simpl never.
Arguments encode : simpl never.
Arguments isoformat : simpl never.
Arguments strftime_Ymd : simpl never.
Arguments strftime_HMS : simpl never.
Arguments parse_response : simpl never.
Arguments parse_request : simpl never.
Arguments log_entry_of : simpl never.
Arguments summary_line : simpl never.
Arguments log_file_of : simpl never.
Arguments encode_error : simpl never.
Arguments stdout_error : simpl never.
Arguments header_error : simpl never.

(** ** What a run of the handler leaves behind *)

(** The calls on the response side that relay an upstream response
    (lines 170-176). *)
Definition relay_events `{PyLib} (status : Z) (hs : list (str * str))
    (body : bytes) : list wire_event :=
  [SendResponse status]
    ++ map (fun kv => SendHeader kv.1 kv.2) (relayed_headers hs)
    ++ [SendHeader (u "Content-Length") (str_of_Z (Z.of_nat (length body)));
        EndHeaders; WfileWrite body].

(** The text [{"error": "<message>"}], as [json.dumps] writes it. *)
Definition error_json (message : str) : str :=
  u "{" ++ json_string (u "error") ++ u ": " ++ json_string message ++ u "}".

(** The calls on the response side that report a failure
    (lines 180-184). *)
Definition error_events (e : exn) : list wire_event :=
  [SendResponse 502; SendHeader (u "Content-Type") (u "application/json");
   EndHeaders; WfileWrite (map byte_of (error_json (exn_str e)))].

(** The exception that stops the loop of lines 171-173 over [hs], if
    any, and the headers sent before it. *)
Fixpoint header_failure (hs : list (str * str)) : option exn :=
  match hs with
  | [] => None
  | (k, v) :: rest =>
      match header_error k v with
      | Some e => Some e
      | None => header_failure rest
      end
  end.

Fixpoint headers_sent (hs : list (str * str)) : list (str * str) :=
  match hs with
  | [] => []
  | (k, v) :: rest =>
      match header_error k v with
      | Some _ => []
      | None => (k, v) :: headers_sent rest
      end
  end.

(** The calls on the response side when [send_header] raises [e] during
    the relay: the upstream status and the headers before the failure,
    then the report of the failure. *)
Definition broken_relay_events `{PyLib} (status : Z) (hs : list (str * str))
    (e : exn) : list wire_event :=
  [SendResponse status]
    ++ map (fun kv => SendHeader kv.1 kv.2) (headers_sent (relayed_headers hs))
    ++ error_events e.

(** The upstream calls made between two worlds. *)
Definition attempts (w w' : World) : list (Request.t * result Response.t) :=
  drop (length (calls w)) (calls w').

(** The run from [w] to [w'] called upstream and got [response]. *)
Definition upstream_returned (w w' : World) (response : Response.t) : Prop :=
  exists rq, (rq, Ok response) ∈ attempts w w'.

(** The run from [w] to [w'] called upstream and the call raised [e]. *)
Definition upstream_raised (w w' : World) (e : exn) : Prop :=
  exists rq, (rq, Raise e) ∈ attempts w w'.

(** The run from [w] to [w'] appended the one line of [entry] to the file
    [p] and changed nothing else below the log directory. *)
Definition one_entry_appended `{PyLib} (w w' : World) (p : Path)
    (entry : json) : Prop :=
  fs w' = <[p := default [] (fs w !! p) ++ json_dumps entry ++ [10%N]]> (fs w).

(** The bytes line 90 reads for an announced length [n], and what it
    leaves unread. *)
Definition request_body_of (n : Z) (w : World) : bytes :=
  if 0 <? n then take (Z.to_nat n) (rfile w) else [].
Definition unread_after (n : Z) (w : World) : bytes :=
  if 0 <? n then drop (Z.to_nat n) (rfile w) else rfile w.

(** The values of [model] and [prompt_preview] before the request is
    parsed. *)
Definition no_fields : req_vars := {| model := JStr []; prompt_preview := [] |}.

(** The raw response text, truncated. *)
Definition raw_preview (response : Response.t) : str :=
  take 500 (Response.text response).

Definition is_str (v : json) : bool :=
  match v with JStr _ => true | _ => false end.

Definition is_dict (v : json) : bool :=
  match v with JObj _ => true | _ => false end.

Definition ascii_only (s : str) : Prop := Forall (fun c => (c < 128)%N) s.

(** The date the log writer reads during a request that starts in [w]: the
    fourth clock reading of [proxy_request]. *)
Definition write_date (env : Env) (w : World) : datetime :=
  datetime_now env (3 + clock w).

(** The same calendar day. *)
Definition same_day (d1 d2 : datetime) : Prop :=
  year d1 = year d2 /\ month d1 = month d2 /\ day d1 = day d2.

(** ** The extraction rule, in the words of the specification *)

(** A block of type "text". *)
Definition is_text_block (c : json) : bool :=
  match c with
  | JObj d => eq_str (dict_get d (u "type") JNull) (u "text")
  | _ => false
  end.

(** The text field of a block, empty when there is none. *)
Definition text_field (c : json) : str :=
  match c with
  | JObj d => match dict_get d (u "text") (JStr []) with JStr s => s | _ => [] end
  | _ => []
  end.

Fixpoint join_with (sep : str) (parts : list str) : str :=
  match parts with
  | [] => []
  | s :: rest =>
      match rest with
      | [] => s
      | _ => s ++ sep ++ join_with sep rest
      end
  end.

(** Filter to the blocks of type "text", join their text fields with a
    single space, truncate to 500 characters. *)
Definition spec_text_preview (blocks : list json) : str :=
  take 500 (join_with (u " ")
              (map text_field (filter (fun c => is_text_block c = true) blocks))).

(** A string is truncated, a list of typed blocks is filtered and joined,
    any other shape yields an empty preview. *)
Definition spec_preview (content : json) : str :=
  match content with
  | JStr s => take 500 s
  | JArr blocks => spec_text_preview blocks
  | _ => []
  end.

(** A typed block: an object whose text, if it is of type "text" and has
    one, is a string. *)
Definition typed_block (c : json) : bool :=
  match c with
  | JObj d =>
      if eq_str (dict_get d (u "type") JNull) (u "text") then
        match dict_get d (u "text") (JStr []) with JStr _ => true | _ => false end
      else true
  | _ => false
  end.

(** ** A concrete library and concrete worlds for the examples *)

Module Sample.

(** A [bytes] literal; ['] stands for the double quote of the JSON
    text. *)
Definition b (lit : string) : bytes :=
  map (fun a => if Ascii.eqb a "'"%char then x22 else byte_of_ascii a)
      (list_ascii_of_string lit).

Definition body_array : bytes := b "[1]".
Definition body_not_json : bytes := b "{not json".
Definition body_blocks : bytes :=
  b "{'model': 'm', 'messages': [{'role': 'user', 'content': [{'type': 'text', 'text': 'ab'}, {'type': 'image'}, {'type': 'text', 'text': 'cd'}]}]}".
Definition body_bad_block : bytes :=
  b "{'messages': [{'role': 'user', 'content': [5]}]}".

(** A chunked transfer of the five bytes [hello]. *)
Definition body_chunked : bytes :=
  b "5" ++ [x0d; x0a] ++ b "hello" ++ [x0d; x0a] ++ b "0"
    ++ [x0d; x0a; x0d; x0a].

Definition blocks_ab_cd : list json :=
  [JObj [(u "type", JStr (u "text")); (u "text", JStr (u "ab"))];
   JObj [(u "type", JStr (u "image"))];
   JObj [(u "type", JStr (u "text")); (u "text", JStr (u "cd"))]].

(** [json.loads] on the four documents above. *)
Definition loads (body : bytes) : result json :=
  if bool_decide (body = body_array) then Ok (JArr [JInt 1])
  else if bool_decide (body = body_not_json) then
    Raise (Exn JSONDecodeError
             (u "Expecting property name enclosed in double quotes: line 1 column 2 (char 1)"))
  else if bool_decide (body = body_blocks) then
    Ok (JObj [(u "model", JStr (u "m"));
              (u "messages",
               JArr [JObj [(u "role", JStr (u "user"));
                           (u "content", JArr blocks_ab_cd)]])])
  else if bool_decide (body = body_bad_block) then
    Ok (JObj [(u "messages",
               JArr [JObj [(u "role", JStr (u "user"));
                           (u "content", JArr [JInt 5])]])])
  else Raise (Exn ValueError (u "not one of the sample documents")).

(** [str.lower] on ASCII text. *)
Definition lower (s : str) : str :=
  map (fun c => if (65 <=? c) && (c <=? 90) then c + 32 else c)%N s.

(** [int] on a string of decimal digits. *)
Definition int_of_digits (s : str) : result Z :=
  if forallb (fun c => (48 <=? c) && (c <=? 57))%N s && negb (bool_decide (s = []))
  then Ok (fold_left (fun acc c => 10 * acc + Z.of_N (c - 48)) s 0)
  else Raise (Exn ValueError (u "invalid literal for int() with base 10")).

#[local] Instance lib : PyLib := {|
  json_loads := loads;
  str_lower := lower;
  int_of_str := int_of_digits;
  float_repr := fun _ => u "0.0";
  str_of_json := fun v => match v with
                          | JInt z => str_of_Z z
                          | JStr s => s
                          | _ => u "None"
                          end
|}.

Definition cfg : Config :=
  {| LOG_DIR := [u "data"; u "api-logs"]; PROJECT_NAME := u "default" |}.

(** 23:59:58 on 1 March 2026, one second later at each reading. *)
Definition evening (n : nat) : datetime :=
  let s := (58 + N.of_nat n)%N in
  if (s <? 60)%N then
    {| year := 2026; month := 3; day := 1; hour := 23; minute := 59;
       second := s; microsecond := 0 |}
  else
    {| year := 2026; month := 3; day := 2; hour := 0; minute := 0;
       second := (s - 60) mod 60; microsecond := 0 |}.

(** The text of an ASCII body. *)
Definition decoded (content : bytes) : str := map Byte.to_N content.

Definition content_ok : bytes :=
  b "{'usage': {'input_tokens': 5, 'output_tokens': 7}, 'content': [{'type': 'text', 'text': 'hi'}]}".

Definition response_ok : Response.t :=
  {| Response.status_code := 200;
     Response.headers := [(u "content-type", u "application/json");
                          (u "content-encoding", u "gzip");
                          (u "content-length", u "999");
                          (u "request-id", u "req_1")];
     Response.content := content_ok;
     Response.text := decoded content_ok;
     Response.json :=
       Ok (JObj [(u "usage", JObj [(u "input_tokens", JInt 5);
                                   (u "output_tokens", JInt 7)]);
                 (u "content", JArr [JObj [(u "type", JStr (u "text"));
                                           (u "text", JStr (u "hi"))]])]) |}.

(** A response whose content array holds a number. *)
Definition content_bad_block : bytes :=
  b "{'usage': {'input_tokens': 5, 'output_tokens': 7}, 'content': [1]}".

Definition response_bad_block : Response.t :=
  {| Response.status_code := 200;
     Response.headers := [(u "content-type", u "application/json")];
     Response.content := content_bad_block;
     Response.text := decoded content_bad_block;
     Response.json :=
       Ok (JObj [(u "usage", JObj [(u "input_tokens", JInt 5);
                                   (u "output_tokens", JInt 7)]);
                 (u "content", JArr [JInt 1])]) |}.

(** A response whose content is a string. *)
Definition content_string : bytes := b "{'content': 'hello'}".

Definition response_string_content : Response.t :=
  {| Response.status_code := 200;
     Response.headers := [(u "content-type", u "application/json")];
     Response.content := content_string;
     Response.text := decoded content_string;
     Response.json := Ok (JObj [(u "content", JStr (u "hello"))]) |}.

(** An error page that is not JSON. *)
Definition content_not_found : bytes := b "not found".

Definition response_not_found : Response.t :=
  {| Response.status_code := 404;
     Response.headers := [(u "content-type", u "text/plain");
                          (u "transfer-encoding", u "chunked")];
     Response.content := content_not_found;
     Response.text := decoded content_not_found;
     Response.json :=
       Raise (Exn JSONDecodeError
                (u "Expecting value: line 1 column 1 (char 0)")) |}.

(** The upstream answers; every file can be written. *)
Definition env_ok (response : Response.t) : Env :=
  {| time_time := fun n => 250000 * Z.of_nat n;
     datetime_now := evening;
     client_request := fun _ _ => Ok response;
     append_fault := fun _ => None;
     stdout_errors := SurrogateEscape;
     client_request_text := ltac:(by intros ? ? ? [= <-]);
     append_fault_text := ltac:(by intros ? ? [= <-]) |}.

Definition connection_refused : exn :=
  Exn TransportError (u "[Errno 111] Connection refused").

(** The upstream cannot be reached. *)
Definition env_refused : Env :=
  {| time_time := fun n => 250000 * Z.of_nat n;
     datetime_now := evening;
     client_request := fun _ _ => Raise connection_refused;
     append_fault := fun _ => None;
     stdout_errors := SurrogateEscape;
     client_request_text := ltac:(by intros ? ? ? [= <-]);
     append_fault_text := ltac:(by intros ? ? [= <-]) |}.

Definition permission_denied : exn :=
  Exn OSError (u "[Errno 13] Permission denied").

(** The upstream answers; the log directory cannot be written. *)
Definition env_read_only (response : Response.t) : Env :=
  {| time_time := fun n => 250000 * Z.of_nat n;
     datetime_now := evening;
     client_request := fun _ _ => Ok response;
     append_fault := fun _ => Some permission_denied;
     stdout_errors := SurrogateEscape;
     client_request_text := ltac:(by intros ? ? ? [= <-]);
     append_fault_text := ltac:(by intros ? ? [= <-]) |}.

(** A request for [/v1/messages] that announces [body]. *)
Definition handler_for (body : bytes) : ProxyHandler :=
  {| path := u "/v1/messages";
     headers := [(u "Host", u "localhost:8000");
                 (u "Content-Type", u "application/json");
                 (u "Content-Length", str_of_Z (Z.of_nat (length body)))] |}.

(** A request without a [Content-Length] header. *)
Definition handler_bare : ProxyHandler :=
  {| path := u "/v1/models"; headers := [(u "Host", u "localhost:8000")] |}.

(** A fresh connection that carries [body]; no log file exists yet. *)
Definition world_with (body : bytes) : World :=
  {| rfile := body; wire := []; fs := ∅; calls := []; stdout := [];
     clock := 0 |}.

End Sample.

(** ** The outcomes of [proxy_request]

    [handled env cfg self method w r w'] lists the ways a run of
    [proxy_request] that starts in [w] can end: with result [r] (an
    exception that leaves the handler, or a normal return) in world [w']. *)

Section Outcome.
Context {lib : PyLib} (env : Env) (cfg : Config).
Context (self : ProxyHandler) (method : str) (w : World).

(** [time.time()] is read first and again when the upstream call is
    back; [datetime.now()] is read third for the timestamp. *)
Definition duration_ms_of : Z :=
  Z.quot (time_time env (1 + clock w) - time_time env (clock w)) 1000.

Definition entry_of (rq : req_vars) (response : Response.t) : json :=
  log_entry_of cfg self (datetime_now env (2 + clock w)) rq
    (parse_response response) duration_ms_of (Response.status_code response).

(** The summary line of line 167; [datetime.now()] is read a fifth time
    for it. *)
Definition summary_of (response : Response.t) : str :=
  summary_line (datetime_now env (4 + clock w)) method self
    (Response.status_code response) duration_ms_of (parse_response response).

(** The exception that [print] raises on the summary line, if any. *)
Definition summary_error (response : Response.t) : option exn :=
  stdout_error (stdout_errors env) (summary_of response).

Inductive handled : result unit -> World -> Prop :=
| handled_bad_length e w' :
    content_length_header self = Raise e ->
    rfile w' = rfile w -> calls w' = calls w ->
    fs w' = fs w -> wire w' = wire w ->
    handled (Raise e) w'
| handled_bad_body n e w' :
    content_length_header self = Ok n ->
    parse_request (request_body_of n w) = Raise e ->
    rfile w' = unread_after n w -> calls w' = calls w ->
    fs w' = fs w -> wire w' = wire w ->
    handled (Raise e) w'
| handled_upstream_error n rq e w' :
    content_length_header self = Ok n ->
    parse_request (request_body_of n w) = Ok rq ->
    let up := upstream_request self method (request_body_of n w) in
    client_request env (length (calls w)) up = Raise e ->
    is_Exception e = true ->
    rfile w' = unread_after n w -> calls w' = calls w ++ [(up, Raise e)] ->
    fs w' = fs w -> wire w' = wire w ++ error_events e ->
    handled (Ok tt) w'
| handled_upstream_interrupt n rq e w' :
    content_length_header self = Ok n ->
    parse_request (request_body_of n w) = Ok rq ->
    let up := upstream_request self method (request_body_of n w) in
    client_request env (length (calls w)) up = Raise e ->
    is_Exception e = false ->
    rfile w' = unread_after n w -> calls w' = calls w ++ [(up, Raise e)] ->
    fs w' = fs w -> wire w' = wire w ->
    handled (Raise e) w'
| handled_log_error n rq response e w' :
    content_length_header self = Ok n ->
    parse_request (request_body_of n w) = Ok rq ->
    let up := upstream_request self method (request_body_of n w) in
    client_request env (length (calls w)) up = Ok response ->
    append_fault env (log_file_of cfg (write_date env w)) = Some e ->
    is_Exception e = true ->
    rfile w' = unread_after n w -> calls w' = calls w ++ [(up, Ok response)] ->
    fs w' = fs w -> wire w' = wire w ++ error_events e ->
    handled (Ok tt) w'
| handled_log_interrupt n rq response e w' :
    content_length_header self = Ok n ->
    parse_request (request_body_of n w) = Ok rq ->
    let up := upstream_request self method (request_body_of n w) in
    client_request env (length (calls w)) up = Ok response ->
    append_fault env (log_file_of cfg (write_date env w)) = Some e ->
    is_Exception e = false ->
    rfile w' = unread_after n w -> calls w' = calls w ++ [(up, Ok response)] ->
    fs w' = fs w -> wire w' = wire w ->
    handled (Raise e) w'
| handled_print_error n rq response e w' :
    content_length_header self = Ok n ->
    parse_request (request_body_of n w) = Ok rq ->
    let up := upstream_request self method (request_body_of n w) in
    client_request env (length (calls w)) up = Ok response ->
    append_fault env (log_file_of cfg (write_date env w)) = None ->
    summary_error response = Some e ->
    rfile w' = unread_after n w -> calls w' = calls w ++ [(up, Ok response)] ->
    one_entry_appended w w' (log_file_of cfg (write_date env w))
                       (entry_of rq response) ->
    wire w' = wire w ++ error_events e ->
    handled (Ok tt) w'
| handled_relay_error n rq response e w' :
    content_length_header self = Ok n ->
    parse_request (request_body_of n w) = Ok rq ->
    let up := upstream_request self method (request_body_of n w) in
    client_request env (length (calls w)) up = Ok response ->
    append_fault env (log_file_of cfg (write_date env w)) = None ->
    summary_error response = None ->
    header_failure (relayed_headers (Response.headers response)) = Some e ->
    rfile w' = unread_after n w -> calls w' = calls w ++ [(up, Ok response)] ->
    one_entry_appended w w' (log_file_of cfg (write_date env w))
                       (entry_of rq response) ->
    wire w' = wire w ++ broken_relay_events (Response.status_code response)
                          (Response.headers response) e ->
    handled (Ok tt) w'
| handled_relayed n rq response w' :
    content_length_header self = Ok n ->
    parse_request (request_body_of n w) = Ok rq ->
    let up := upstream_request self method (request_body_of n w) in
    client_request env (length (calls w)) up = Ok response ->
    append_fault env (log_file_of cfg (write_date env w)) = None ->
    summary_error response = None ->
    header_failure (relayed_headers (Response.headers response)) = None ->
    rfile w' = unread_after n w -> calls w' = calls w ++ [(up, Ok response)] ->
    one_entry_appended w w' (log_file_of cfg (write_date env w))
                       (entry_of rq response) ->
    wire w' = wire w ++ relay_events (Response.status_code response)
                          (Response.headers response)
                          (Response.content response) ->
    handled (Ok tt) w'.
End Outcome.

(** ** Runs *)

(** [entry[k]] on a log entry. *)
Definition field (entry : json) (k : str) : json :=
  match entry with
  | JObj d => dict_get d k JNull
  | _ => JNull
  end.

(** The world a computation leaves and the result it gives. *)
Definition world_after {A} (m : M World A) (w : World) : World := (m w).2.
Definition result_of {A} (m : M World A) (w : World) : result A := (m w).1.

(** ** Further observations *)

(** [d[k]] on a [dict], when the key is there. *)
Fixpoint dict_lookup {V : Type} (d : list (str * V)) (k : str) : option V :=
  match d with
  | [] => None
  | (k', v) :: d' => if bool_decide (k' = k) then Some v else dict_lookup d' k
  end.

(** The value of the last header of [hs] that is named exactly [k]. *)
Definition last_value (hs : list (str * str)) (k : str) : option str :=
  snd <$> last (filter (fun kv => kv.1 = k) hs).

(** The calls made on the response side between two worlds. *)
Definition sent (w w' : World) : list wire_event :=
  drop (length (wire w)) (wire w').

Definition is_status (ev : wire_event) : bool :=
  match ev with SendResponse _ => true | _ => false end.

(** The header lines among the calls, with the name in lower case. *)
Definition lowered_header `{PyLib} (ev : wire_event) : option (str * str) :=
  match ev with
  | SendHeader k v => Some (str_lower k, v)
  | _ => None
  end.

(** A printable ASCII character; one that [json.dumps] writes as it is. *)
Definition printable (c : N) : Prop := (32 <= c <= 126)%N.
Definition unescaped (c : N) : Prop :=
  (32 <= c <= 126 /\ c <> 34 /\ c <> 92)%N.

(** [float.__repr__] writes printable ASCII. *)
Definition float_repr_printable `{PyLib} : Prop :=
  forall f, Forall printable (float_repr f).

(** The text [{"status": "ok", "project": "<project>"}], as [json.dumps]
    writes it. *)
Definition health_json (project : str) : str :=
  u "{" ++ json_string (u "status") ++ u ": " ++ json_string (u "ok")
    ++ u ", " ++ json_string (u "project") ++ u ": " ++ json_string project
    ++ u "}".

(** A string between double quotes. *)
Definition quoted (s : str) : str := [34%N] ++ s ++ [34%N].

(** [str.lower] takes the name Content-Length to content-length. *)
Definition lower_content_length `{PyLib} : Prop :=
  str_lower (u "Content-Length") = u "content-length".

(** ** More sample documents *)

Module Sample2.

(** A request object without messages. *)
Definition body_model_only : bytes := Sample.b "{'model': 'm'}".

(** [json.loads]: the documents of [Sample] and the one above. *)
Definition loads (body : bytes) : result json :=
  if bool_decide (body = body_model_only)
  then Ok (JObj [(u "model", JStr (u "m"))])
  else Sample.loads body.

(** [int] on decimal digits with an optional minus sign. *)
Definition int_of_signed (s : str) : result Z :=
  match s with
  | 45%N :: digits =>
      match Sample.int_of_digits digits with
      | Ok n => Ok (- n)
      | Raise e => Raise e
      end
  | _ => Sample.int_of_digits s
  end.

#[local] Instance lib : PyLib := {|
  json_loads := loads;
  str_lower := Sample.lower;
  int_of_str := int_of_signed;
  float_repr := fun _ => u "0.0";
  str_of_json := fun v => match v with
                          | JInt z => str_of_Z z
                          | JStr s => s
                          | _ => u "None"
                          end
|}.

(** A request that announces the length [announced]. *)
Definition handler_announcing (announced : str) : ProxyHandler :=
  {| path := u "/v1/messages";
     headers := [(u "Host", u "localhost:8000");
                 (u "content-length", announced)] |}.

End Sample2.

(** ** Responses that cannot be reported or relayed as they are *)

Module Sample3.

(** A body whose input token count is a string that holds the lone
    surrogate U+D800 (written as an escape in the JSON text). *)
Definition content_surrogate : bytes :=
  Sample.b "{'usage': {'input_tokens': '\ud800', 'output_tokens': 7}}".

Definition response_surrogate : Response.t :=
  {| Response.status_code := 200;
     Response.headers := [(u "content-type", u "application/json")];
     Response.content := content_surrogate;
     Response.text := Sample.decoded content_surrogate;
     Response.json :=
       Ok (JObj [(u "usage", JObj [(u "input_tokens", JStr [55296%N]);
                                   (u "output_tokens", JInt 7)])]) |}.

(** The response of [Sample.response_ok] with one more header, whose
    value is the euro sign U+20AC. *)
Definition response_euro : Response.t :=
  {| Response.status_code := 200;
     Response.headers := [(u "content-type", u "application/json");
                          (u "x-note", [8364%N]);
                          (u "request-id", u "req_1")];
     Response.content := Sample.content_ok;
     Response.text := Sample.decoded Sample.content_ok;
     Response.json := Response.json Sample.response_ok |}.

Definition surrogate_error : exn :=
  Exn UnicodeEncodeError
    (u "'utf-8' codec can't encode character '\ud800' in position 44: surrogates not allowed").

Definition euro_error : exn :=
  Exn UnicodeEncodeError
    (u "'latin-1' codec can't encode character '\u20ac' in position 8: ordinal not in range(256)").

End Sample3.

(** * Properties *)

(** ** Text blocks: the code against the rule of the specification *)

Lemma str_join_from_cons2 i sep s p rest :
  str_join_from i sep (JStr s :: p :: rest)
  = match str_join_from (S i) sep (p :: rest) with
    | Ok r => Ok (s ++ sep ++ r)
    | Raise e => Raise e
    end.
Proof. reflexivity. Qed.

Lemma str_join_from_strs i sep (l : list str) :
  str_join_from i sep (map JStr l) = Ok (join_with sep l).
Proof.
  revert i. induction l as [|s l IH]; intros i; [reflexivity|].
  destruct l as [|s' l]; [reflexivity|].
  change (map JStr (s :: s' :: l)) with (JStr s :: JStr s' :: map JStr l).
  rewrite str_join_from_cons2.
  change (JStr s' :: map JStr l) with (map JStr (s' :: l)).
  rewrite IH. reflexivity.
Qed.

Lemma typed_block_inv c :
  typed_block c = true ->
  exists d, c = JObj d /\
    (is_text_block c = true -> dict_get d (u "text") (JStr []) = JStr (text_field c)).
Proof.
  destruct c; try discriminate. intros H. exists d. split; [reflexivity|].
  cbn in *. intros Ht. rewrite Ht in H.
  destruct (dict_get d (u "text") (JStr [])); try discriminate. reflexivity.
Qed.

Lemma text_parts_of_typed blocks :
  forallb typed_block blocks = true ->
  text_parts_of blocks
  = Ok (map JStr (map text_field (filter (fun c => is_text_block c = true) blocks))).
Proof.
  induction blocks as [|c blocks IH]; [reflexivity|].
  cbn [forallb]. intros [Hc Hr]%andb_prop.
  destruct (typed_block_inv c Hc) as (d & -> & Htext).
  cbn [text_parts_of py_get]. rewrite filter_cons.
  change (eq_str (dict_get d (u "type") JNull) (u "text")) with (is_text_block (JObj d)).
  destruct (decide (is_text_block (JObj d) = true)) as [Ht|Ht].
  - rewrite Ht, (Htext Ht), (IH Hr). reflexivity.
  - apply not_true_is_false in Ht. rewrite Ht. apply IH, Hr.
Qed.

Lemma text_preview_typed blocks :
  forallb typed_block blocks = true ->
  text_preview blocks = Ok (spec_text_preview blocks).
Proof.
  intros H. unfold text_preview, str_join.
  rewrite (text_parts_of_typed blocks H), str_join_from_strs. reflexivity.
Qed.


Lemma str_join_from_not_str i sep parts :
  forallb is_str parts = false -> exists e, str_join_from i sep parts = Raise e.
Proof.
  revert i. induction parts as [|p rest IH]; intros i; [discriminate|].
  cbn [forallb]. intros H.
  destruct p; try (eexists; reflexivity).
  cbn [is_str andb] in H. destruct rest as [|p' rest]; [discriminate|].
  rewrite str_join_from_cons2.
  destruct (IH (S i) H) as [e ->]. eauto.
Qed.

Lemma text_parts_of_untyped blocks :
  forallb typed_block blocks = false ->
  (exists e, text_parts_of blocks = Raise e) \/
  (exists parts, text_parts_of blocks = Ok parts /\ forallb is_str parts = false).
Proof.
  induction blocks as [|c blocks IH]; [discriminate|].
  cbn [forallb]. intros H.
  destruct c; try (left; eexists; reflexivity).
  cbn [text_parts_of py_get]. cbn [typed_block] in H.
  destruct (eq_str (dict_get d (u "type") JNull) (u "text")).
  - destruct (dict_get d (u "text") (JStr [])) eqn:Ht;
      cbn [andb] in H;
      try (destruct (text_parts_of blocks) as [ts|e]; [right|left]; eexists; eauto; fail).
    destruct (IH H) as [[e ->]|(parts & -> & Hp)]; [left; eauto|right].
    eexists; split; [reflexivity|]. exact Hp.
  - cbn [andb] in H. exact (IH H).
Qed.

Lemma text_preview_untyped blocks :
  forallb typed_block blocks = false -> exists e, text_preview blocks = Raise e.
Proof.
  intros H. unfold text_preview, str_join.
  destruct (text_parts_of_untyped blocks H) as [[e ->]|(parts & -> & Hp)]; [eauto|].
  destruct (str_join_from_not_str 0 (u " ") parts Hp) as [e ->]. eauto.
Qed.

Lemma str_join_from_raise_class i sep parts e :
  str_join_from i sep parts = Raise e -> exn_cls e = TypeError.
Proof.
  revert i. induction parts as [|p rest IH]; intros i; [discriminate|].
  destruct p; try (intros [= <-]; reflexivity).
  destruct rest as [|p' rest]; [discriminate|].
  rewrite str_join_from_cons2.
  destruct (str_join_from (S i) sep (p' :: rest)) eqn:E; [discriminate|].
  intros [= <-]. eapply IH, E.
Qed.

Lemma text_parts_of_raise_class blocks e :
  text_parts_of blocks = Raise e -> exn_cls e = AttributeError.
Proof.
  induction blocks as [|c blocks IH]; [discriminate|].
  cbn [text_parts_of].
  destruct c; try (intros [= <-]; reflexivity).
  cbn [py_get].
  destruct (eq_str _ _); [|exact IH].
  destruct (text_parts_of blocks); [discriminate|].
  intros [= <-]. apply IH. reflexivity.
Qed.

Lemma text_preview_raise_class blocks e :
  text_preview blocks = Raise e ->
  exn_cls e = AttributeError \/ exn_cls e = TypeError.
Proof.
  unfold text_preview, str_join.
  destruct (text_parts_of blocks) as [parts|e'] eqn:E.
  - destruct (str_join_from 0 (u " ") parts) eqn:E'; [discriminate|].
    intros [= <-]. right. eapply str_join_from_raise_class, E'.
  - intros [= <-]. left. eapply text_parts_of_raise_class, E.
Qed.

(** ** The request parse *)

Section ParseFacts.
Context {lib : PyLib}.


Lemma parse_request_empty : parse_request [] = Ok no_fields.
Proof. reflexivity. Qed.

Lemma parse_request_loads_raise body e :
  body <> [] -> json_loads body = Raise e ->
  parse_request body = if is_JSONDecodeError e then Ok no_fields else Raise e.
Proof.
  intros Hb He. unfold parse_request. destruct body as [|x body]; [done|].
  unfold try_except, parse_request_body, mbind, M_bind, lift. rewrite He.
  destruct (is_JSONDecodeError e); reflexivity.
Qed.

Lemma parse_request_non_object body v :
  body <> [] -> json_loads body = Ok v -> (forall d, v <> JObj d) ->
  parse_request body = Raise (no_attribute_get v).
Proof.
  intros Hb Hv Hd. unfold parse_request. destruct body as [|x body]; [done|].
  unfold try_except, parse_request_body, mbind, M_bind, lift. rewrite Hv.
  destruct v; try reflexivity. destruct (Hd d eq_refl).
Qed.


Lemma parse_request_last_message body d msgs m :
  body <> [] -> json_loads body = Ok (JObj d) ->
  dict_get d (u "messages") (JArr []) = JArr msgs ->
  last msgs = Some (JObj m) ->
  parse_request body
  = match dict_get m (u "content") (JStr []) with
    | JArr blocks =>
        match text_preview blocks with
        | Ok p => Ok {| model := dict_get d (u "model") (JStr []);
                        prompt_preview := p |}
        | Raise e => Raise e
        end
    | content => Ok {| model := dict_get d (u "model") (JStr []);
                       prompt_preview := spec_preview content |}
    end.
Proof.
  intros Hb Hv Hm Hl. unfold parse_request. destruct body as [|x body]; [done|].
  unfold try_except, parse_request_body, mbind, M_bind, lift. rewrite Hv.
  cbn [py_get]. cbn. rewrite Hm.
  assert (Ht : truthy (JArr msgs) = true) by (destruct msgs; [discriminate|reflexivity]).
  rewrite Ht. cbn [py_last]. rewrite Hl. cbn [py_get].
  destruct (dict_get m (u "content") (JStr [])) eqn:Hc; try reflexivity.
  destruct (text_preview l) as [p|e] eqn:Hp; [reflexivity|].
  cbn. destruct (text_preview_raise_class _ _ Hp) as [H|H];
    unfold is_JSONDecodeError; rewrite H; reflexivity.
Qed.
End ParseFacts.


(** ** The error body is plain ASCII *)

Lemma encode_ascii s : ascii_only s -> encode s = Ok (map byte_of s).
Proof.
  unfold encode. induction 1 as [|c s Hc _ IH]; [reflexivity|].
  fold encode in *. 
  unfold utf8_char. apply N.ltb_lt in Hc. rewrite Hc, IH. reflexivity.
Qed.

Lemma hex_digit_ascii n : (n < 16)%N -> (hex_digit n < 128)%N.
Proof. unfold hex_digit. intros H. destruct (n <? 10)%N; lia. Qed.

Lemma esc4_ascii n : ascii_only (esc4 n).
Proof.
  unfold esc4, ascii_only.
  repeat (apply Forall_cons; split); try apply Forall_nil; try lia;
    apply hex_digit_ascii, N.mod_lt; lia.
Qed.

Lemma escape_char_ascii c : ascii_only (escape_char c).
Proof.
  unfold escape_char.
  repeat (match goal with
          | |- ascii_only (if ?b then _ else _) => destruct b eqn:?
          end);
    first [ solve [repeat constructor]
          | apply esc4_ascii
          | apply Forall_app; split; apply esc4_ascii
          | match goal with
            | H : (_ && (c <=? 126)%N) = true |- _ =>
                apply andb_prop in H as [_ H%N.leb_le];
                constructor; [lia|constructor]
            end ].
Qed.

Lemma json_string_ascii s : ascii_only (json_string s).
Proof.
  unfold json_string, ascii_only.
  apply Forall_app; split; [repeat constructor|].
  apply Forall_app; split; [|repeat constructor].
  induction s as [|c s IH]; [constructor|].
  cbn [flat_map]. apply Forall_app; split; [apply escape_char_ascii|exact IH].
Qed.

Lemma literal_ascii (lit : string) :
  forallb (fun c => (c <? 128)%N) (u lit) = true -> ascii_only (u lit).
Proof.
  intros H. apply Forall_forall. intros c Hc.
  rewrite forallb_forall in H. apply N.ltb_lt, H, list_elem_of_In, Hc.
Qed.

Lemma error_json_ascii msg : ascii_only (error_json msg).
Proof.
  unfold error_json.
  apply Forall_app_2; [apply literal_ascii; reflexivity|].
  apply Forall_app_2; [apply json_string_ascii|].
  apply Forall_app_2; [apply literal_ascii; reflexivity|].
  apply Forall_app_2; [apply json_string_ascii|].
  apply literal_ascii; reflexivity.
Qed.

Lemma health_json_ascii project : ascii_only (health_json project).
Proof.
  unfold health_json.
  repeat (apply Forall_app_2;
          [first [apply json_string_ascii|apply literal_ascii; reflexivity]|]).
  apply literal_ascii; reflexivity.
Qed.

(** ** Printable text and the strict encoders *)

Lemma literal_printable (lit : string) :
  forallb (fun c => (32 <=? c) && (c <=? 126))%N (u lit) = true ->
  Forall printable (u lit).
Proof.
  intros H. apply Forall_forall. intros c Hc%list_elem_of_In.
  rewrite forallb_forall in H. apply H in Hc.
  apply andb_prop in Hc as [?%N.leb_le ?%N.leb_le]. by split.
Qed.

Lemma digits_printable d : Forall printable (u (NilEmpty.string_of_uint d)).
Proof.
  induction d; cbn; try (constructor; [by vm_compute|exact IHd]).
  constructor.
Qed.

Lemma str_of_Z_printable z : Forall printable (str_of_Z z).
Proof.
  unfold str_of_Z, NilZero.string_of_int.
  assert (H : forall d, Forall printable (u (NilZero.string_of_uint d))).
  { intros d. unfold NilZero.string_of_uint.
    destruct d; try apply digits_printable. by apply literal_printable. }
  destruct (Z.to_int z) as [d|d]; [apply H|].
  constructor; [by vm_compute|apply H].
Qed.

Lemma hex_digit_printable n : (n < 16)%N -> printable (hex_digit n).
Proof. unfold hex_digit, printable. intros H. destruct (n <? 10)%N eqn:E; [|apply N.ltb_ge in E]; lia. Qed.

Lemma esc4_printable n : Forall printable (esc4 n).
Proof.
  unfold esc4.
  repeat (constructor;
          [first [apply hex_digit_printable, N.mod_lt; lia
                 |unfold printable; lia]|]).
  constructor.
Qed.

Lemma escaped_printable c : Forall printable (escaped c).
Proof.
  unfold escaped.
  destruct (c <=? 255)%N; [|destruct (c <=? 65535)%N; [apply esc4_printable|]];
    repeat (constructor;
            [first [apply hex_digit_printable, N.mod_lt; lia
                   |unfold printable; lia]|]);
    constructor.
Qed.

Lemma printable_accepted errors c : printable c -> stdout_rejects errors c = false.
Proof.
  unfold printable, stdout_rejects, is_surrogate. intros H.
  apply andb_false_iff. left. apply andb_false_iff. left. apply N.leb_gt. lia.
Qed.

Lemma printable_latin1 c : printable c -> not_latin1 c = false.
Proof. unfold printable, not_latin1. intros H. apply N.ltb_ge. lia. Qed.

Lemma first_bad_none bad joins text i :
  first_bad bad joins text i = None <-> Forall (fun c => bad c = false) text.
Proof.
  revert i. induction text as [|c text IH]; intros i; cbn.
  - split; [constructor|done].
  - destruct (bad c) eqn:Hc.
    + split; [done|]. intros H. inversion H; congruence.
    + rewrite IH. split; [by constructor|]. intros H. by inversion H.
Qed.

Lemma encode_error_none encoding bad joins reason text :
  encode_error encoding bad joins reason text = None
  <-> Forall (fun c => bad c = false) text.
Proof.
  unfold encode_error. rewrite <- (first_bad_none bad joins text 0).
  destruct (first_bad bad joins text 0) as [[[start c] stop]|]; [|done].
  split; discriminate.
Qed.

(** The exception of an encoder is an [Exception] whose text is printable
    ASCII. *)
Lemma encode_error_text encoding bad joins reason text e :
  Forall printable encoding -> Forall printable reason ->
  encode_error encoding bad joins reason text = Some e ->
  is_Exception e = true /\ Forall printable (exn_str e).
Proof.
  intros He Hr. unfold encode_error.
  destruct (first_bad bad joins text 0) as [[[start c] stop]|]; [|done].
  intros [= <-]. split; [done|]. cbn [exn_str]. unfold UnicodeEncodeError_str.
  apply Forall_app_2; [by apply literal_printable|].
  apply Forall_app_2; [exact He|].
  apply Forall_app_2; [by apply literal_printable|].
  apply Forall_app_2; [|apply Forall_app_2; [by apply literal_printable|exact Hr]].
  destruct (stop =? S start)%nat.
  - apply Forall_app_2; [by apply literal_printable|].
    apply Forall_app_2; [apply escaped_printable|].
    apply Forall_app_2; [by apply literal_printable|apply str_of_Z_printable].
  - apply Forall_app_2; [by apply literal_printable|].
    apply Forall_app_2; [apply str_of_Z_printable|].
    apply Forall_app_2; [by apply literal_printable|apply str_of_Z_printable].
Qed.

Lemma stdout_error_printable errors s :
  Forall printable s -> stdout_error errors s = None.
Proof.
  intros H. apply encode_error_none.
  eapply Forall_impl; [exact H|]. apply printable_accepted.
Qed.

Lemma stdout_error_app errors a b :
  stdout_error errors a = None -> stdout_error errors b = None ->
  stdout_error errors (a ++ b) = None.
Proof.
  unfold stdout_error. rewrite !encode_error_none. apply Forall_app_2.
Qed.

Lemma header_error_printable k v :
  Forall printable k -> Forall printable v -> header_error k v = None.
Proof.
  intros Hk Hv. apply encode_error_none.
  apply Forall_app_2; [eapply Forall_impl; [exact Hk|apply printable_latin1]|].
  apply Forall_app_2; [by apply Forall_forall; intros c Hc%list_elem_of_In;
                          repeat (destruct Hc as [<-|Hc]; [done|])|].
  apply Forall_app_2; [eapply Forall_impl; [exact Hv|apply printable_latin1]|].
  by repeat constructor.
Qed.

(** What [print] and [send_header] raise is an [Exception] whose text can
    be printed. *)
Lemma stdout_error_text errors errors' line e :
  stdout_error errors line = Some e ->
  is_Exception e = true /\ stdout_error errors' (exn_str e) = None.
Proof.
  intros H. apply encode_error_text in H as [Hx Hp];
    try (by apply literal_printable).
  split; [exact Hx|by apply stdout_error_printable].
Qed.

Lemma header_error_text errors k v e :
  header_error k v = Some e ->
  is_Exception e = true /\ stdout_error errors (exn_str e) = None.
Proof.
  intros H. apply encode_error_text in H as [Hx Hp];
    try (by apply literal_printable).
  split; [exact Hx|by apply stdout_error_printable].
Qed.

Lemma header_failure_text errors hs e :
  header_failure hs = Some e ->
  is_Exception e = true /\ stdout_error errors (exn_str e) = None.
Proof.
  induction hs as [|[k v] hs IH]; [done|]. cbn [header_failure].
  destruct (header_error k v) as [e'|] eqn:Hkv; [|exact IH].
  intros [= ->]. by apply (header_error_text errors k v).
Qed.

Lemma header_failure_none hs :
  header_failure hs = None -> headers_sent hs = hs.
Proof.
  induction hs as [|[k v] hs IH]; [done|]. cbn [header_failure headers_sent].
  destruct (header_error k v); [done|]. intros H. by rewrite (IH H).
Qed.

(** ** Runs of the handler *)

Section Run.
Context {lib : PyLib} (env : Env) (cfg : Config).

Lemma print_run line w :
  stdout_error (stdout_errors env) line = None ->
  print env line w
  = (Ok tt, {| rfile := rfile w; wire := wire w; fs := fs w; calls := calls w;
               stdout := stdout w ++ [line]; clock := clock w |}).
Proof. intros H. unfold print. by rewrite H. Qed.

Lemma send_header_run k v w :
  header_error k v = None ->
  send_header k v w
  = (Ok tt, {| rfile := rfile w; wire := wire w ++ [SendHeader k v];
               fs := fs w; calls := calls w; stdout := stdout w;
               clock := clock w |}).
Proof. intros H. unfold send_header. by rewrite H. Qed.

Lemma content_type_sendable :
  header_error (u "Content-Type") (u "application/json") = None.
Proof. by apply header_error_printable; apply literal_printable. Qed.

Lemma content_length_sendable n :
  header_error (u "Content-Length") (str_of_Z n) = None.
Proof.
  apply header_error_printable;
    [by apply literal_printable|apply str_of_Z_printable].
Qed.

Lemma send_headers_run hs w :
  send_headers hs w
  = (match header_failure hs with Some e => Raise e | None => Ok tt end,
     {| rfile := rfile w;
        wire := wire w ++ map (fun kv => SendHeader kv.1 kv.2) (headers_sent hs);
        fs := fs w; calls := calls w; stdout := stdout w;
        clock := clock w |}).
Proof.
  revert w. induction hs as [|[k v] hs IH]; intros w.
  - cbn. rewrite app_nil_r. destruct w; reflexivity.
  - cbn [send_headers header_failure headers_sent]. unfold mbind, M_bind.
    destruct (header_error k v) as [e|] eqn:Hkv.
    + unfold send_header. rewrite Hkv. cbn. rewrite app_nil_r.
      destruct w; reflexivity.
    + rewrite (send_header_run _ _ _ Hkv), IH. cbn.
      rewrite <- app_assoc. reflexivity.
Qed.

Lemma proxy_error_run e w :
  stdout_error (stdout_errors env) (exn_str e) = None ->
  proxy_error env e w
  = (Ok tt, {| rfile := rfile w; wire := wire w ++ error_events e;
               fs := fs w; calls := calls w;
               stdout := stdout w ++ [u "[ERROR] Proxy error: " ++ exn_str e];
               clock := clock w |}).
Proof.
  intros He. unfold proxy_error, mbind, M_bind.
  rewrite print_run
    by (apply stdout_error_app;
        [by apply stdout_error_printable, literal_printable|exact He]).
  unfold send_response at 1, emit at 1, modify at 1.
  rewrite (send_header_run _ _ _ content_type_sendable).
  unfold end_headers, lift, emit, modify.
  change (json_dumps _) with (error_json (exn_str e)).
  rewrite (encode_ascii _ (error_json_ascii _)).
  unfold wfile_write, emit, modify. cbn.
  unfold error_events. rewrite <- !app_assoc. reflexivity.
Qed.

Lemma forward_and_log_run self method start body rq w :
  let up := upstream_request self method body in
  let d := datetime_now env (2 + clock w) in
  forward_and_log env cfg self method start body rq w
  = match client_request env (length (calls w)) up with
    | Raise e =>
        (Raise e,
         {| rfile := rfile w; wire := wire w; fs := fs w;
            calls := calls w ++ [(up, Raise e)]; stdout := stdout w;
            clock := clock w |})
    | Ok response =>
        let dur := Z.quot (time_time env (clock w) - start) 1000 in
        let entry := log_entry_of cfg self (datetime_now env (1 + clock w)) rq
                       (parse_response response) dur
                       (Response.status_code response) in
        let line := summary_line (datetime_now env (3 + clock w)) method self
                      (Response.status_code response) dur
                      (parse_response response) in
        let logged := <[log_file_of cfg d :=
                          default [] (fs w !! log_file_of cfg d)
                            ++ json_dumps entry ++ [10%N]]> (fs w) in
        match append_fault env (log_file_of cfg d) with
        | Some e =>
            (Raise e,
             {| rfile := rfile w; wire := wire w; fs := fs w;
                calls := calls w ++ [(up, Ok response)]; stdout := stdout w;
                clock := 3 + clock w |})
        | None =>
            match stdout_error (stdout_errors env) line with
            | Some e =>
                (Raise e,
                 {| rfile := rfile w; wire := wire w; fs := logged;
                    calls := calls w ++ [(up, Ok response)];
                    stdout := stdout w; clock := 4 + clock w |})
            | None =>
                match header_failure (relayed_headers (Response.headers response)) with
                | Some e =>
                    (Raise e,
                     {| rfile := rfile w;
                        wire := wire w
                          ++ [SendResponse (Response.status_code response)]
                          ++ map (fun kv => SendHeader kv.1 kv.2)
                               (headers_sent
                                  (relayed_headers (Response.headers response)));
                        fs := logged;
                        calls := calls w ++ [(up, Ok response)];
                        stdout := stdout w ++ [line]; clock := 4 + clock w |})
                | None =>
                    (Ok tt,
                     {| rfile := rfile w;
                        wire := wire w
                          ++ relay_events (Response.status_code response)
                               (Response.headers response)
                               (Response.content response);
                        fs := logged;
                        calls := calls w ++ [(up, Ok response)];
                        stdout := stdout w ++ [line]; clock := 4 + clock w |})
                end
            end
        end
    end.
Proof.
  intros up d. unfold forward_and_log, mbind, M_bind. cbn.
  fold up. destruct (client_request env (length (calls w)) up) as [response|e];
    [|reflexivity].
  cbn. unfold log_request, get_log_file, file_append, mbind, M_bind. cbn.
  change (datetime_now env (S (S (clock w)))) with d.
  destruct (append_fault env (log_file_of cfg d)) as [e|]; [reflexivity|].
  cbn. unfold print at 1. cbn.
  destruct (stdout_error _) as [e|]; [reflexivity|].
  cbn. rewrite send_headers_run. cbn.
  destruct (header_failure _) as [e|] eqn:Hh.
  - cbn. rewrite <- !app_assoc. reflexivity.
  - rewrite (header_failure_none _ Hh).
    rewrite (send_header_run _ _ _ (content_length_sendable _)).
    unfold end_headers, wfile_write, emit, modify. cbn.
    unfold relay_events. rewrite <- !app_assoc. reflexivity.
Qed.

Lemma proxy_request_handled self method w r w' :
  proxy_request env cfg self method w = (r, w') ->
  handled env cfg self method w r w'.
Proof.
  unfold proxy_request, mbind, M_bind, time_now, lift. cbn.
  destruct (content_length_header self) as [n|e] eqn:Hn.
  2:{ intros [= <- <-]. by apply handled_bad_length. }
  assert (Hbody :
    (if 0 <? n then rfile_read n else mret []) (tick w)
    = (Ok (request_body_of n w),
       {| rfile := unread_after n w; wire := wire w; fs := fs w;
          calls := calls w; stdout := stdout w; clock := S (clock w) |})).
  { unfold request_body_of, unread_after. destruct (0 <? n); reflexivity. }
  rewrite Hbody. clear Hbody.
  destruct (parse_request (request_body_of n w)) as [rq|e] eqn:Hrq.
  2:{ intros [= <- <-]. by eapply handled_bad_body. }
  unfold try_except. rewrite forward_and_log_run. cbn.
  destruct (client_request env (length (calls w)) _) as [response|e] eqn:Hup.
  - change (datetime_now env (S (S (S (clock w))))) with (write_date env w).
    destruct (append_fault env (log_file_of cfg (write_date env w))) as [e|] eqn:Hf.
    + destruct (is_Exception e) eqn:He.
      * rewrite proxy_error_run by (by eapply append_fault_text).
        intros [= <- <-]. by eapply handled_log_error.
      * intros [= <- <-]. by eapply handled_log_interrupt.
    + change (summary_line _ _ _ _ _ _)
        with (summary_of env self method w response).
      change (stdout_error _ (summary_of env self method w response))
        with (summary_error env self method w response).
      destruct (summary_error env self method w response) as [e|] eqn:Hp.
      * destruct (stdout_error_text _ (stdout_errors env) _ _ Hp) as [-> He].
        rewrite (proxy_error_run _ _ He). intros [= <- <-].
        by eapply handled_print_error.
      * destruct (header_failure _) as [e|] eqn:Hh.
        -- destruct (header_failure_text (stdout_errors env) _ _ Hh) as [-> He].
           rewrite (proxy_error_run _ _ He). intros [= <- <-].
           eapply handled_relay_error; try done.
           cbn. unfold broken_relay_events. by rewrite <- !app_assoc.
        -- intros [= <- <-]. by eapply handled_relayed.
  - destruct (is_Exception e) eqn:He.
    + rewrite proxy_error_run by (by eapply client_request_text).
      intros [= <- <-]. by eapply handled_upstream_error.
    + intros [= <- <-]. by eapply handled_upstream_interrupt.
Qed.
End Run.

(** ** The response parse *)

Lemma raw_preview_eq response :
  match Response.text response with [] => [] | t => take 500 t end
  = raw_preview response.
Proof. unfold raw_preview. destruct (Response.text response); reflexivity. Qed.

(** The three variables after the block, by the shape of the body. *)
Lemma parse_response_cases response :
  let rs := parse_response response in
  let fallback := {| response_preview := raw_preview response;
                     input_tokens := JInt 0; output_tokens := JInt 0 |} in
  match Response.json response with
  | Ok (JObj d) =>
      match dict_get d (u "usage") (JObj []) with
      | JObj usage =>
          input_tokens rs = dict_get usage (u "input_tokens") (JInt 0) /\
          output_tokens rs = dict_get usage (u "output_tokens") (JInt 0) /\
          response_preview rs =
            match dict_get d (u "content") (JArr []) with
            | JArr (c :: l) =>
                if forallb typed_block (c :: l)
                then spec_text_preview (c :: l)
                else raw_preview response
            | _ => []
            end
      | _ => rs = fallback
      end
  | _ => rs = fallback
  end.
Proof.
  intros rs fallback. subst rs fallback.
  unfold parse_response, try_except, parse_response_body, mbind, M_bind, lift.
  destruct (Response.json response) as [v|e]; cbn [snd];
    [|unfold set_response_preview, modify; cbn; by rewrite raw_preview_eq].
  destruct v;
    try (unfold set_response_preview, modify; cbn; by rewrite raw_preview_eq).
  cbn [py_get].
  destruct (dict_get d (u "usage") (JObj [])) as [| | | | | |usage];
    try (unfold set_response_preview, modify; cbn; by rewrite raw_preview_eq).
  cbn [py_get]. unfold set_input_tokens, set_output_tokens, modify. cbn.
  destruct (dict_get d (u "content") (JArr [])) as [| | | | |blocks|]; cbn;
    try done.
  destruct blocks as [|c l]; cbn; [done|].
  change (typed_block c && forallb typed_block l)
    with (forallb typed_block (c :: l)).
  destruct (forallb typed_block (c :: l)) eqn:Ht.
  - rewrite (text_preview_typed _ Ht). cbn. done.
  - destruct (text_preview_untyped _ Ht) as [e ->]. cbn.
    by rewrite raw_preview_eq.
Qed.

(** ** One file per day *)

Lemma digit_inj a b : (digit a = digit b -> a mod 10 = b mod 10)%N.
Proof. unfold digit. lia. Qed.

Lemma decimal_step a b :
  (a mod 10 = b mod 10 -> a / 10 = b / 10 -> a = b)%N.
Proof.
  intros Hm Hd. rewrite (N.div_mod a 10), (N.div_mod b 10) by lia.
  by rewrite Hm, Hd.
Qed.

Lemma pad2_inj a b : (a < 100 -> b < 100 -> pad2 a = pad2 b -> a = b)%N.
Proof.
  unfold pad2. intros Ha Hb [= H1%digit_inj H0%digit_inj].
  apply decimal_step; [done|].
  rewrite !N.mod_small in H1 by (apply N.Div0.div_lt_upper_bound; lia). done.
Qed.

Lemma pad4_inj a b : (a < 10000 -> b < 10000 -> pad4 a = pad4 b -> a = b)%N.
Proof.
  unfold pad4.
  intros Ha Hb [= H3%digit_inj H2%digit_inj H1%digit_inj H0%digit_inj].
  rewrite !N.mod_small in H3 by (apply N.Div0.div_lt_upper_bound; lia).
  apply decimal_step; [done|].
  apply decimal_step; [done|]. rewrite !N.Div0.div_div.
  apply decimal_step; [done|]. rewrite !N.Div0.div_div. exact H3.
Qed.

Lemma strftime_Ymd_inj d1 d2 :
  valid_datetime d1 -> valid_datetime d2 ->
  strftime_Ymd d1 = strftime_Ymd d2 -> same_day d1 d2.
Proof.
  intros V1 V2. unfold strftime_Ymd, valid_datetime in *.
  change (u "-") with [45%N]. intros H.
  assert (H' := H). unfold pad4, pad2 in H'. cbn [app] in H'.
  injection H' as Y3 Y2 Y1 Y0 M1 M0 D1 D0.
  repeat split; [apply pad4_inj|apply pad2_inj|apply pad2_inj];
    try lia; unfold pad4, pad2; congruence.
Qed.

Lemma log_file_of_inj cfg d1 d2 :
  valid_datetime d1 -> valid_datetime d2 ->
  log_file_of cfg d1 = log_file_of cfg d2 -> same_day d1 d2.
Proof.
  intros V1 V2. unfold log_file_of, path_div.
  intros [_ H]%app_inj_tail. apply app_inv_head, app_inv_tail in H.
  by apply strftime_Ymd_inj.
Qed.

(** ** What the log and the caller see *)

Lemma attempts_none w w' : calls w' = calls w -> attempts w w' = [].
Proof. intros H. unfold attempts. rewrite H. apply drop_all. Qed.

Lemma attempts_app w w' l : calls w' = calls w ++ l -> attempts w w' = l.
Proof. intros H. unfold attempts. rewrite H. apply drop_app_length. Qed.

Lemma one_entry_appended_lookup `{PyLib} w w' p entry :
  one_entry_appended w w' p entry ->
  fs w' !! p = Some (default [] (fs w !! p) ++ json_dumps entry ++ [10%N]).
Proof. intros E. rewrite E. apply lookup_insert_eq. Qed.

Lemma one_entry_appended_other `{PyLib} w w' p entry q :
  one_entry_appended w w' p entry -> q <> p -> fs w' !! q = fs w !! q.
Proof. intros E Hq. rewrite E. by apply lookup_insert_ne. Qed.

Lemma one_entry_appended_changes `{PyLib} w w' p entry :
  one_entry_appended w w' p entry -> fs w' <> fs w.
Proof.
  intros E Heq. pose proof (one_entry_appended_lookup _ _ _ _ E) as Hl.
  rewrite Heq in Hl. destruct (fs w !! p) as [old|]; [|discriminate].
  injection Hl as Hl. apply (f_equal length) in Hl.
  rewrite !length_app in Hl. cbn in Hl. lia.
Qed.

Section Claims.
Context {lib : PyLib} (env : Env) (cfg : Config).

Lemma handled_after self method w :
  handled env cfg self method w
    (result_of (proxy_request env cfg self method) w)
    (world_after (proxy_request env cfg self method) w).
Proof.
  apply proxy_request_handled. unfold result_of, world_after.
  destruct (proxy_request env cfg self method w); reflexivity.
Qed.

(** The requests that reach [proxy_request]: every POST and every GET for
    a path other than /health. *)
Lemma do_POST_proxied self : do_POST env cfg self = proxy_request env cfg self (u "POST").
Proof. reflexivity. Qed.

Lemma do_GET_proxied self :
  path self <> u "/health" ->
  do_GET env cfg self = proxy_request env cfg self (u "GET").
Proof. intros H. unfold do_GET. by rewrite bool_decide_eq_false_2. Qed.

(** GET /health *)
Lemma do_GET_health_run self w :
  path self = u "/health" ->
  do_GET env cfg self w
  = (Ok tt,
     {| rfile := rfile w;
        wire := wire w
          ++ [SendResponse 200;
              SendHeader (u "Content-Type") (u "application/json");
              EndHeaders;
              WfileWrite (map byte_of (health_json (PROJECT_NAME cfg)))];
        fs := fs w; calls := calls w; stdout := stdout w; clock := clock w |}).
Proof.
  intros H. unfold do_GET. rewrite bool_decide_eq_true_2 by done.
  unfold mbind, M_bind. unfold send_response at 1, emit at 1, modify at 1.
  rewrite (send_header_run _ _ _ content_type_sendable).
  unfold end_headers, lift, emit, modify.
  change (json_dumps _) with (health_json (PROJECT_NAME cfg)).
  rewrite (encode_ascii _ (health_json_ascii _)).
  unfold wfile_write, emit, modify. cbn. rewrite <- !app_assoc. reflexivity.
Qed.

(** The health check calls neither the upstream nor the log writer. *)
Lemma health_check_bypasses_proxy self w :
  path self = u "/health" ->
  let w' := world_after (do_GET env cfg self) w in
  calls w' = calls w /\ fs w' = fs w /\
  exists body, wire w' = wire w ++ [SendResponse 200;
                 SendHeader (u "Content-Type") (u "application/json");
                 EndHeaders; WfileWrite body].
Proof.
  intros H w'. subst w'. unfold world_after.
  rewrite (do_GET_health_run _ _ H). cbn.
  split; [done|]. split; [done|]. by eexists.
Qed.

(** C1, as amended.  A request that reaches [proxy_request] appends at most
    one log entry: exactly one, to the file of the day, when the upstream
    call returns and the file can be written; none when the upstream call
    raises. *)
Theorem log_entries_of_a_request self method w :
  let w' := world_after (proxy_request env cfg self method) w in
  let p := log_file_of cfg (write_date env w) in
  (forall response,
      upstream_returned w w' response -> append_fault env p = None ->
      exists n rq,
        content_length_header self = Ok n /\
        parse_request (request_body_of n w) = Ok rq /\
        one_entry_appended w w' p (entry_of env cfg self w rq response) /\
        fs w' <> fs w)
  /\ (forall e, upstream_raised w w' e -> fs w' = fs w)
  /\ (fs w' = fs w \/ exists q entry, one_entry_appended w w' q entry).
Proof.
  intros w' p. subst w' p.
  destruct (handled_after self method w)
    as [e w' Hn Hr Hc Hf Hw
       |n e w' Hn Hq Hr Hc Hf Hw
       |n rq e w' Hn Hq up Hup He Hr Hc Hf Hw
       |n rq e w' Hn Hq up Hup He Hr Hc Hf Hw
       |n rq response e w' Hn Hq up Hup Ha He Hr Hc Hf Hw
       |n rq response e w' Hn Hq up Hup Ha He Hr Hc Hf Hw
       |n rq response e w' Hn Hq up Hup Ha Hprint Hr Hc Hf Hw
       |n rq response e w' Hn Hq up Hup Ha Hprint Hhdr Hr Hc Hf Hw
       |n rq response w' Hn Hq up Hup Ha Hprint Hhdr Hr Hc Hf Hw].
  1,2: (unfold upstream_returned, upstream_raised;
        rewrite (attempts_none _ _ Hc);
        split; [intros ? [? ?%elem_of_nil]; done|];
        split; [intros ? [? ?%elem_of_nil]; done|]; by left).
  1,2: (unfold upstream_returned, upstream_raised;
        rewrite (attempts_app _ _ _ Hc);
        split; [intros ? [? [=]%list_elem_of_singleton]|];
        split; [done|by left]).
  1,2: (unfold upstream_returned, upstream_raised;
        rewrite (attempts_app _ _ _ Hc);
        split; [intros ? _ Hnone; congruence|];
        split; [done|by left]).
  all: unfold upstream_returned, upstream_raised;
       rewrite (attempts_app _ _ _ Hc);
       (split; [|split]);
       [intros r [x [= _ ->]%list_elem_of_singleton] _;
        exists n, rq; repeat split; try done;
        by eapply one_entry_appended_changes
       |intros e' [x [=]%list_elem_of_singleton]
       |right; eauto].
Qed.


(** C5, as amended.  When the upstream call returns status S and body B
    and none of the steps before the end of the relay raises (the log
    append succeeds, stdout can encode the summary line that [print]
    writes, and Latin-1 can encode every relayed header), the caller
    receives S, then the upstream headers in their order except
    Transfer-Encoding, Content-Encoding and Content-Length, then
    Content-Length set to the length of B, then B unchanged. *)
Theorem upstream_response_is_relayed self method w response :
  let w' := world_after (proxy_request env cfg self method) w in
  upstream_returned w w' response ->
  append_fault env (log_file_of cfg (write_date env w)) = None ->
  summary_error env self method w response = None ->
  header_failure (relayed_headers (Response.headers response)) = None ->
  exists copied,
    wire w' = wire w
      ++ [SendResponse (Response.status_code response)]
      ++ map (fun kv => SendHeader kv.1 kv.2) copied
      ++ [SendHeader (u "Content-Length")
            (str_of_Z (Z.of_nat (length (Response.content response))));
          EndHeaders;
          WfileWrite (Response.content response)]
    /\ copied `sublist_of` Response.headers response
    /\ (forall kv,
          kv ∈ copied <->
          kv ∈ Response.headers response /\
          str_lower kv.1 ∉ [u "transfer-encoding"; u "content-encoding";
                            u "content-length"])
    /\ result_of (proxy_request env cfg self method) w = Ok tt.
Proof.
  intros w'. subst w'. unfold upstream_returned.
  destruct (handled_after self method w)
    as [e w' Hn Hr Hc Hf Hw
       |n e w' Hn Hq Hr Hc Hf Hw
       |n rq e w' Hn Hq up Hup He Hr Hc Hf Hw
       |n rq e w' Hn Hq up Hup He Hr Hc Hf Hw
       |n rq r e w' Hn Hq up Hup Ha He Hr Hc Hf Hw
       |n rq r e w' Hn Hq up Hup Ha He Hr Hc Hf Hw
       |n rq r e w' Hn Hq up Hup Ha Hprint Hr Hc Hf Hw
       |n rq r e w' Hn Hq up Hup Ha Hprint Hhdr Hr Hc Hf Hw
       |n rq r w' Hn Hq up Hup Ha Hprint Hhdr Hr Hc Hf Hw].
  1,2: rewrite (attempts_none _ _ Hc); by intros [? ?%elem_of_nil].
  1,2: rewrite (attempts_app _ _ _ Hc);
       by intros [? [=]%list_elem_of_singleton].
  1,2: intros _ Hnone; congruence.
  1,2: rewrite (attempts_app _ _ _ Hc);
       intros [x [= _ ->]%list_elem_of_singleton] _ Hp' Hh'; congruence.
  rewrite (attempts_app _ _ _ Hc).
  intros [x [= _ ->]%list_elem_of_singleton] _ _ _.
  exists (relayed_headers (Response.headers r)).
  split; [exact Hw|]. split; [apply sublist_filter|]. split; [|reflexivity].
  intros kv. unfold relayed_headers, lower_not_in.
  rewrite list_elem_of_filter, negb_true_iff, bool_decide_eq_false. tauto.
Qed.

(** C6.  When the upstream call raises an [Exception] (a network error, a
    timeout, a reset connection), that call was the only attempt and the
    caller receives status 502 with the body [{"error": "<message>"}]. *)
Theorem upstream_failure_gives_502 self method w e :
  let w' := world_after (proxy_request env cfg self method) w in
  is_Exception e = true ->
  upstream_raised w w' e ->
  (exists rq, attempts w w' = [(rq, Raise e)])
  /\ wire w' = wire w
       ++ [SendResponse 502;
           SendHeader (u "Content-Type") (u "application/json");
           EndHeaders;
           WfileWrite (map byte_of (error_json (exn_str e)))]
  /\ encode (json_dumps (JObj [(u "error", JStr (exn_str e))]))
     = Ok (map byte_of (error_json (exn_str e)))
  /\ result_of (proxy_request env cfg self method) w = Ok tt.
Proof.
  intros w' He'. subst w'. unfold upstream_raised.
  assert (Henc : encode (json_dumps (JObj [(u "error", JStr (exn_str e))]))
                 = Ok (map byte_of (error_json (exn_str e))))
    by apply (encode_ascii _ (error_json_ascii _)).
  destruct (handled_after self method w)
    as [x w' Hn Hr Hc Hf Hw
       |n x w' Hn Hq Hr Hc Hf Hw
       |n rq x w' Hn Hq up Hup He Hr Hc Hf Hw
       |n rq x w' Hn Hq up Hup He Hr Hc Hf Hw
       |n rq r x w' Hn Hq up Hup Ha He Hr Hc Hf Hw
       |n rq r x w' Hn Hq up Hup Ha He Hr Hc Hf Hw
       |n rq r x w' Hn Hq up Hup Ha Hprint Hr Hc Hf Hw
       |n rq r x w' Hn Hq up Hup Ha Hprint Hhdr Hr Hc Hf Hw
       |n rq r w' Hn Hq up Hup Ha Hprint Hhdr Hr Hc Hf Hw].
  1,2: rewrite (attempts_none _ _ Hc); by intros [? ?%elem_of_nil].
  all: rewrite (attempts_app _ _ _ Hc);
       intros [y [= _ ->]%list_elem_of_singleton].
  - split; [by exists up|]. by split.
  - congruence.
Qed.

(** C10.  When the Content-Length header is absent or 0, the handler reads
    nothing from the inbound connection, whatever it carries, and makes
    its one upstream call with an empty body. *)
Theorem no_content_length_reads_nothing self method w :
  let w' := world_after (proxy_request env cfg self method) w in
  headers_get (headers self) (u "Content-Length") = None \/
  (exists v, headers_get (headers self) (u "Content-Length") = Some v /\
             int_of_str v = Ok 0) ->
  rfile w' = rfile w /\
  exists rq, attempts w w' = [(rq, client_request env (length (calls w)) rq)]
             /\ Request.content rq = [].
Proof.
  intros w' Hcl. subst w'.
  assert (Hz : content_length_header self = Ok 0).
  { unfold content_length_header. destruct Hcl as [->|(v & -> & ->)]; reflexivity. }
  assert (Hp : parse_request (request_body_of 0 w) = Ok no_fields) by reflexivity.
  destruct (handled_after self method w)
    as [x w' Hn Hr Hc Hf Hw
       |n x w' Hn Hq Hr Hc Hf Hw
       |n rq x w' Hn Hq up Hup He Hr Hc Hf Hw
       |n rq x w' Hn Hq up Hup He Hr Hc Hf Hw
       |n rq r x w' Hn Hq up Hup Ha He Hr Hc Hf Hw
       |n rq r x w' Hn Hq up Hup Ha He Hr Hc Hf Hw
       |n rq r x w' Hn Hq up Hup Ha Hprint Hr Hc Hf Hw
       |n rq r x w' Hn Hq up Hup Ha Hprint Hhdr Hr Hc Hf Hw
       |n rq r w' Hn Hq up Hup Ha Hprint Hhdr Hr Hc Hf Hw];
    rewrite Hz in Hn; try discriminate; injection Hn as <-;
    try (rewrite Hp in Hq; discriminate).
  all: split; [exact Hr|]; exists up; rewrite (attempts_app _ _ _ Hc);
       split; [by rewrite Hup|reflexivity].
Qed.

(** C8.  Every write of the log writer goes to the file
    LOG_DIR/PROJECT_NAME/api-log-YYYY-MM-DD.jsonl of the date read from the
    clock at that write; it appends the serialized record and a newline;
    the file of any other day is a different file and is left as it was. *)
Theorem log_request_appends_to_the_file_of_the_day data w :
  let today := datetime_now env (clock w) in
  let p := log_file_of cfg today in
  let w' := world_after (log_request env cfg data) w in
  p = LOG_DIR cfg
        ++ [PROJECT_NAME cfg;
            u "api-log-" ++ pad4 (year today) ++ u "-" ++ pad2 (month today)
              ++ u "-" ++ pad2 (day today) ++ u ".jsonl"]
  /\ (append_fault env p = None ->
      result_of (log_request env cfg data) w = Ok tt /\
      fs w' = <[p := default [] (fs w !! p) ++ json_dumps data ++ [10%N]]> (fs w))
  /\ (forall other,
        valid_datetime today -> valid_datetime other ->
        ~ same_day other today ->
        log_file_of cfg other <> p /\
        fs w' !! log_file_of cfg other = fs w !! log_file_of cfg other).
Proof.
  intros today p w'.
  assert (Hrun : log_request env cfg data w
                 = match append_fault env p with
                   | Some e => (Raise e, tick w)
                   | None =>
                       (Ok tt,
                        {| rfile := rfile w; wire := wire w;
                           fs := <[p := default [] (fs w !! p)
                                          ++ json_dumps data ++ [10%N]]> (fs w);
                           calls := calls w; stdout := stdout w;
                           clock := S (clock w) |})
                   end).
  { unfold log_request, get_log_file, file_append, mbind, M_bind, now. cbn.
    fold today. fold p. by destruct (append_fault env p). }
  subst w'. unfold world_after, result_of. rewrite Hrun.
  split; [|split].
  - subst p. unfold log_file_of, PROJECT_LOG_DIR, path_div, strftime_Ymd.
    rewrite <- !app_assoc. reflexivity.
  - by intros ->.
  - intros other Vt Vo Hne.
    assert (Hp : log_file_of cfg other <> p)
      by (intros Heq; apply Hne; by apply (log_file_of_inj cfg)).
    split; [done|].
    destruct (append_fault env p); cbn; [done|].
    by rewrite lookup_insert_ne.
Qed.

Lemma entry_fields self w rq response :
  let entry := entry_of env cfg self w rq response in
  let rs := parse_response response in
  field entry (u "model") = model rq
  /\ field entry (u "prompt_preview") = JStr (prompt_preview rq)
  /\ field entry (u "response_preview") = JStr (response_preview rs)
  /\ field entry (u "input_tokens") = input_tokens rs
  /\ field entry (u "output_tokens") = output_tokens rs
  /\ field entry (u "status_code") = JInt (Response.status_code response)
  /\ field entry (u "path") = JStr (path self).
Proof. repeat split. Qed.

(** C7, as amended.  In the entry logged for an upstream response, the
    token counts are the fields of the usage object of the response body
    (0 when absent) whenever the body is a JSON object whose usage is an
    object or absent; the preview is then the joined text of its content
    when that is a non-empty list of typed blocks, the raw text when that
    list holds anything else, and empty when content is absent, empty or
    not a list.  For every other body the preview is the raw text and both
    counts are 0. *)
Theorem response_fields_logged self w rq response :
  let entry := entry_of env cfg self w rq response in
  match Response.json response with
  | Ok (JObj d) =>
      match dict_get d (u "usage") (JObj []) with
      | JObj usage =>
          field entry (u "input_tokens")
          = dict_get usage (u "input_tokens") (JInt 0) /\
          field entry (u "output_tokens")
          = dict_get usage (u "output_tokens") (JInt 0) /\
          field entry (u "response_preview") =
            JStr match dict_get d (u "content") (JArr []) with
                 | JArr (c :: l) =>
                     if forallb typed_block (c :: l)
                     then spec_text_preview (c :: l)
                     else raw_preview response
                 | _ => []
                 end
      | _ =>
          field entry (u "input_tokens") = JInt 0 /\
          field entry (u "output_tokens") = JInt 0 /\
          field entry (u "response_preview") = JStr (raw_preview response)
      end
  | _ =>
      field entry (u "input_tokens") = JInt 0 /\
      field entry (u "output_tokens") = JInt 0 /\
      field entry (u "response_preview") = JStr (raw_preview response)
  end.
Proof.
  intros entry.
  destruct (entry_fields self w rq response) as (_ & _ & Hp & Hi & Ho & _).
  fold entry in Hp, Hi, Ho. rewrite Hp, Hi, Ho.
  pose proof (parse_response_cases response) as H. cbv zeta in H.
  destruct (Response.json response) as [[| | | | | |d]|e];
    try (by rewrite H).
  destruct (dict_get d (u "usage") (JObj [])) as [| | | | | |usage];
    try (by rewrite H).
  destruct H as (-> & -> & ->). done.
Qed.

(** C2.  A body that is valid JSON but not an object stops the handler: the
    AttributeError of line 99 is not caught, so the request is not
    forwarded, nothing is logged and nothing is sent to the caller. *)
Theorem non_object_body_aborts self method w n v :
  let w' := world_after (proxy_request env cfg self method) w in
  let body := request_body_of n w in
  content_length_header self = Ok n ->
  body <> [] ->
  json_loads body = Ok v ->
  is_dict v = false ->
  result_of (proxy_request env cfg self method) w = Raise (no_attribute_get v)
  /\ attempts w w' = [] /\ wire w' = wire w /\ fs w' = fs w.
Proof.
  intros w' body Hcl Hb Hv Hd. subst w' body.
  assert (Hp : parse_request (request_body_of n w) = Raise (no_attribute_get v)).
  { apply parse_request_non_object; try done. by intros d ->. }
  destruct (handled_after self method w)
    as [x w' Hn Hr Hc Hf Hw
       |n' x w' Hn Hq Hr Hc Hf Hw
       |n' rq x w' Hn Hq up Hup Hx Hr Hc Hf Hw
       |n' rq x w' Hn Hq up Hup Hx Hr Hc Hf Hw
       |n' rq r x w' Hn Hq up Hup Ha Hx Hr Hc Hf Hw
       |n' rq r x w' Hn Hq up Hup Ha Hx Hr Hc Hf Hw
       |n' rq r x w' Hn Hq up Hup Ha Hprint Hr Hc Hf Hw
       |n' rq r x w' Hn Hq up Hup Ha Hprint Hhdr Hr Hc Hf Hw
       |n' rq r w' Hn Hq up Hup Ha Hprint Hhdr Hr Hc Hf Hw];
    rewrite Hcl in Hn; try discriminate; injection Hn as <-;
    rewrite Hp in Hq; try discriminate; injection Hq as <-.
  by rewrite (attempts_none _ _ Hc).
Qed.

(** C4.  When the content of the last message is a list that holds
    anything but typed blocks (a number, say, for which the rule gives no
    text), no preview is computed: the exception of line 108 or 109 is not
    caught, so the request is not forwarded, nothing is logged and nothing
    is sent to the caller. *)
Theorem untyped_block_aborts self method w n d msgs m blocks :
  let w' := world_after (proxy_request env cfg self method) w in
  let body := request_body_of n w in
  content_length_header self = Ok n ->
  body <> [] ->
  json_loads body = Ok (JObj d) ->
  dict_get d (u "messages") (JArr []) = JArr msgs ->
  last msgs = Some (JObj m) ->
  dict_get m (u "content") (JStr []) = JArr blocks ->
  forallb typed_block blocks = false ->
  exists e,
    (exn_cls e = AttributeError \/ exn_cls e = TypeError)
    /\ result_of (proxy_request env cfg self method) w = Raise e
    /\ attempts w w' = [] /\ wire w' = wire w /\ fs w' = fs w.
Proof.
  intros w' body Hcl Hb Hv Hm Hl Hct Hty. subst w' body.
  destruct (text_preview_untyped blocks Hty) as [e He].
  assert (Hp : parse_request (request_body_of n w) = Raise e)
    by (rewrite (parse_request_last_message _ d msgs m Hb Hv Hm Hl), Hct, He;
        reflexivity).
  exists e. split; [by apply (text_preview_raise_class blocks)|].
  destruct (handled_after self method w)
    as [x w' Hn Hr Hc Hf Hw
       |n' x w' Hn Hq Hr Hc Hf Hw
       |n' rq x w' Hn Hq up Hup Hx Hr Hc Hf Hw
       |n' rq x w' Hn Hq up Hup Hx Hr Hc Hf Hw
       |n' rq r x w' Hn Hq up Hup Ha Hx Hr Hc Hf Hw
       |n' rq r x w' Hn Hq up Hup Ha Hx Hr Hc Hf Hw
       |n' rq r x w' Hn Hq up Hup Ha Hprint Hr Hc Hf Hw
       |n' rq r x w' Hn Hq up Hup Ha Hprint Hhdr Hr Hc Hf Hw
       |n' rq r w' Hn Hq up Hup Ha Hprint Hhdr Hr Hc Hf Hw];
    rewrite Hcl in Hn; try discriminate; injection Hn as <-;
    rewrite Hp in Hq; try discriminate; injection Hq as <-.
  by rewrite (attempts_none _ _ Hc).
Qed.

(** The rule of the specification for the prompt preview, on a body whose
    last message is an object: a string is truncated to 500 characters, a
    list of typed blocks gives the joined text of its text blocks, any
    other content gives the empty preview. *)
Lemma prompt_preview_follows_rule body d msgs m :
  body <> [] ->
  json_loads body = Ok (JObj d) ->
  dict_get d (u "messages") (JArr []) = JArr msgs ->
  last msgs = Some (JObj m) ->
  (forall blocks,
      dict_get m (u "content") (JStr []) = JArr blocks ->
      forallb typed_block blocks = true) ->
  parse_request body
  = Ok {| model := dict_get d (u "model") (JStr []);
          prompt_preview := spec_preview (dict_get m (u "content") (JStr [])) |}.
Proof.
  intros Hb Hv Hm Hl Ht.
  rewrite (parse_request_last_message body d msgs m Hb Hv Hm Hl).
  destruct (dict_get m (u "content") (JStr [])) as [| | | | |blocks|]; try done.
  by rewrite (text_preview_typed blocks (Ht blocks eq_refl)).
Qed.

(** A body that [json.loads] rejects is forwarded all the same, and the
    entry that is logged for it has an empty model and an empty prompt
    preview. *)
Lemma undecodable_body_is_forwarded self method w n e :
  let w' := world_after (proxy_request env cfg self method) w in
  let body := request_body_of n w in
  content_length_header self = Ok n ->
  body <> [] ->
  json_loads body = Raise e ->
  is_JSONDecodeError e = true ->
  exists r,
    attempts w w' = [(upstream_request self method body, r)] /\
    forall response,
      r = Ok response ->
      append_fault env (log_file_of cfg (write_date env w)) = None ->
      one_entry_appended w w' (log_file_of cfg (write_date env w))
        (entry_of env cfg self w no_fields response).
Proof.
  intros w' body Hcl Hb He Hj. subst w' body.
  assert (Hp : parse_request (request_body_of n w) = Ok no_fields)
    by (rewrite (parse_request_loads_raise _ _ Hb He), Hj; reflexivity).
  destruct (handled_after self method w)
    as [x w' Hn Hr Hc Hf Hw
       |n' x w' Hn Hq Hr Hc Hf Hw
       |n' rq x w' Hn Hq up Hup Hx Hr Hc Hf Hw
       |n' rq x w' Hn Hq up Hup Hx Hr Hc Hf Hw
       |n' rq r x w' Hn Hq up Hup Ha Hx Hr Hc Hf Hw
       |n' rq r x w' Hn Hq up Hup Ha Hx Hr Hc Hf Hw
       |n' rq r x w' Hn Hq up Hup Ha Hprint Hr Hc Hf Hw
       |n' rq r x w' Hn Hq up Hup Ha Hprint Hhdr Hr Hc Hf Hw
       |n' rq r w' Hn Hq up Hup Ha Hprint Hhdr Hr Hc Hf Hw];
    rewrite Hcl in Hn; try discriminate; injection Hn as <-;
    rewrite Hp in Hq; try discriminate; injection Hq as <-;
    eexists; rewrite (attempts_app _ _ _ Hc); (split; [reflexivity|]);
    intros response [= <-] Hnone; congruence.
Qed.

End Claims.

(** * Examples *)

(** C1, counterexample.  A POST whose upstream call is refused is answered
    with 502 and leaves the log as it was: no entry is appended. *)
Lemma refused_upstream_leaves_no_entry :
  let w := Sample.world_with [] in
  let w' := world_after
              (do_POST (lib := Sample.lib) Sample.env_refused Sample.cfg
                 Sample.handler_bare) w in
  upstream_raised w w' Sample.connection_refused
  /\ wire w' = error_events Sample.connection_refused
  /\ fs w' = fs w
  /\ ~ exists p entry, one_entry_appended (H := Sample.lib) w w' p entry.
Proof.
  intros w w'.
  assert (Hfs : fs w' = fs w) by (vm_compute; reflexivity).
  split; [|split; [|split]].
  - eexists. vm_compute. apply list_elem_of_here.
  - vm_compute. reflexivity.
  - exact Hfs.
  - intros (p & entry & E). by apply one_entry_appended_changes in E.
Qed.

(** C1, witness: a POST that the upstream answers and that can be logged. *)
Lemma log_entries_of_a_request_witness :
  let w := Sample.world_with Sample.body_blocks in
  let self := Sample.handler_for Sample.body_blocks in
  let env := Sample.env_ok Sample.response_ok in
  let w' := world_after
              (proxy_request (lib := Sample.lib) env Sample.cfg self (u "POST")) w in
  upstream_returned w w' Sample.response_ok
  /\ append_fault env (log_file_of Sample.cfg (write_date env w)) = None
  /\ exists n rq,
       content_length_header (lib := Sample.lib) self = Ok n /\
       parse_request (H := Sample.lib) (request_body_of n w) = Ok rq /\
       one_entry_appended (H := Sample.lib) w w'
         (log_file_of Sample.cfg (write_date env w))
         (entry_of env Sample.cfg self w rq Sample.response_ok) /\
       fs w' <> fs w.
Proof.
  intros w self env w'.
  assert (Hup : upstream_returned w w' Sample.response_ok)
    by (eexists; vm_compute; apply list_elem_of_here).
  split; [exact Hup|]. split; [reflexivity|].
  exact (proj1 (log_entries_of_a_request (lib := Sample.lib) env Sample.cfg
                  self (u "POST") w)
           Sample.response_ok Hup eq_refl).
Defined.

(** C2, witness: the body [[1]], announced with its length. *)
Lemma non_object_body_aborts_witness :
  let self := Sample.handler_for Sample.body_array in
  let w := Sample.world_with Sample.body_array in
  let m := proxy_request (lib := Sample.lib) (Sample.env_ok Sample.response_ok)
             Sample.cfg self (u "POST") in
  content_length_header (lib := Sample.lib) self = Ok 3
  /\ request_body_of 3 w = Sample.body_array
  /\ json_loads (PyLib := Sample.lib) Sample.body_array = Ok (JArr [JInt 1])
  /\ result_of m w
     = Raise (Exn AttributeError (u "'list' object has no attribute 'get'"))
  /\ attempts w (world_after m w) = []
  /\ wire (world_after m w) = []
  /\ fs (world_after m w) = ∅.
Proof.
  intros self w m.
  split; [reflexivity|]. split; [reflexivity|]. split; [reflexivity|].
  refine (non_object_body_aborts (lib := Sample.lib)
            (Sample.env_ok Sample.response_ok) Sample.cfg self (u "POST") w 3
            (JArr [JInt 1]) eq_refl _ eq_refl eq_refl).
  discriminate.
Defined.

(** C4, witness: the last message has the content [[5]], a list without any
    block of type "text", for which the rule gives the empty preview. *)
Lemma untyped_block_aborts_witness :
  let self := Sample.handler_for Sample.body_bad_block in
  let w := Sample.world_with Sample.body_bad_block in
  let m := proxy_request (lib := Sample.lib) (Sample.env_ok Sample.response_ok)
             Sample.cfg self (u "POST") in
  let last_msg := [(u "role", JStr (u "user")); (u "content", JArr [JInt 5])] in
  content_length_header (lib := Sample.lib) self = Ok 48
  /\ request_body_of 48 w = Sample.body_bad_block
  /\ json_loads (PyLib := Sample.lib) Sample.body_bad_block
     = Ok (JObj [(u "messages", JArr [JObj last_msg])])
  /\ spec_preview (JArr [JInt 5]) = []
  /\ exists e,
       (exn_cls e = AttributeError \/ exn_cls e = TypeError)
       /\ result_of m w = Raise e
       /\ attempts w (world_after m w) = []
       /\ wire (world_after m w) = []
       /\ fs (world_after m w) = ∅.
Proof.
  intros self w m last_msg.
  split; [reflexivity|]. split; [reflexivity|]. split; [reflexivity|].
  split; [reflexivity|].
  refine (untyped_block_aborts (lib := Sample.lib)
            (Sample.env_ok Sample.response_ok) Sample.cfg self (u "POST") w 48
            [(u "messages", JArr [JObj last_msg])] [JObj last_msg] last_msg
            [JInt 5] eq_refl _ eq_refl eq_refl eq_refl eq_refl eq_refl).
  discriminate.
Defined.

(** What the caller of the two requests above observes: the exception that
    leaves [do_POST]. *)
Lemma aborted_requests_example :
  result_of (do_POST (lib := Sample.lib) (Sample.env_ok Sample.response_ok)
               Sample.cfg (Sample.handler_for Sample.body_array))
            (Sample.world_with Sample.body_array)
  = Raise (Exn AttributeError (u "'list' object has no attribute 'get'"))
  /\ result_of (do_POST (lib := Sample.lib) (Sample.env_ok Sample.response_ok)
                  Sample.cfg (Sample.handler_for Sample.body_bad_block))
               (Sample.world_with Sample.body_bad_block)
     = Raise (Exn AttributeError (u "'int' object has no attribute 'get'")).
Proof. vm_compute. split; reflexivity. Qed.



(** C5, counterexample.  The upstream answers a GET with 404 and a body;
    the log file cannot be written, and the caller receives neither that
    status nor that body. *)
Lemma read_only_log_replaces_the_relay :
  let w := Sample.world_with [] in
  let w' := world_after
              (do_GET (lib := Sample.lib)
                 (Sample.env_read_only Sample.response_not_found) Sample.cfg
                 Sample.handler_bare) w in
  upstream_returned w w' Sample.response_not_found
  /\ Response.status_code Sample.response_not_found = 404
  /\ wire w' = error_events Sample.permission_denied
  /\ (SendResponse 404 ∉ wire w')
  /\ (WfileWrite (Response.content Sample.response_not_found) ∉ wire w').
Proof.
  intros w w'.
  assert (Hw : wire w' = error_events Sample.permission_denied)
    by (vm_compute; reflexivity).
  split; [|split; [|split; [|split]]].
  - eexists. vm_compute. apply list_elem_of_here.
  - reflexivity.
  - exact Hw.
  - rewrite Hw. unfold error_events. intros H.
    repeat (apply elem_of_cons in H as [H|H]; [discriminate H|]).
    by apply elem_of_nil in H.
  - rewrite Hw. unfold error_events. intros H.
    repeat (apply elem_of_cons in H as [H|H];
            [first [discriminate H
                   |injection H as H; vm_compute in H; discriminate H]|]).
    by apply elem_of_nil in H.
Qed.

(** C5, witness. *)
Lemma upstream_response_is_relayed_witness :
  let w := Sample.world_with Sample.body_blocks in
  let self := Sample.handler_for Sample.body_blocks in
  let env := Sample.env_ok Sample.response_ok in
  let w' := world_after
              (proxy_request (lib := Sample.lib) env Sample.cfg self (u "POST")) w in
  upstream_returned w w' Sample.response_ok
  /\ append_fault env (log_file_of Sample.cfg (write_date env w)) = None
  /\ summary_error (lib := Sample.lib) env self (u "POST") w Sample.response_ok
     = None
  /\ header_failure (relayed_headers (lib := Sample.lib)
                       (Response.headers Sample.response_ok)) = None
  /\ exists copied,
    wire w' = wire w
      ++ [SendResponse (Response.status_code Sample.response_ok)]
      ++ map (fun kv => SendHeader kv.1 kv.2) copied
      ++ [SendHeader (u "Content-Length")
            (str_of_Z (Z.of_nat (length (Response.content Sample.response_ok))));
          EndHeaders;
          WfileWrite (Response.content Sample.response_ok)]
    /\ copied `sublist_of` Response.headers Sample.response_ok
    /\ (forall kv,
          kv ∈ copied <->
          kv ∈ Response.headers Sample.response_ok /\
          str_lower (PyLib := Sample.lib) kv.1
            ∉ [u "transfer-encoding"; u "content-encoding"; u "content-length"])
    /\ result_of (proxy_request (lib := Sample.lib) env Sample.cfg self (u "POST")) w
       = Ok tt.
Proof.
  intros w self env w'.
  assert (Hup : upstream_returned w w' Sample.response_ok)
    by (eexists; vm_compute; apply list_elem_of_here).
  assert (Hprint : summary_error (lib := Sample.lib) env self (u "POST") w
                     Sample.response_ok = None)
    by (vm_compute; reflexivity).
  assert (Hhdr : header_failure (relayed_headers (lib := Sample.lib)
                                   (Response.headers Sample.response_ok)) = None)
    by (vm_compute; reflexivity).
  split; [exact Hup|]. split; [reflexivity|].
  split; [exact Hprint|]. split; [exact Hhdr|].
  exact (upstream_response_is_relayed (lib := Sample.lib) env Sample.cfg
           self (u "POST") w Sample.response_ok Hup eq_refl Hprint Hhdr).
Defined.

(** The upstream answers 200 with a token count that stdout cannot
    encode: the entry is logged with status 200, [print] raises, and the
    caller receives 502 with the text of that error. *)
Lemma unprintable_token_gives_502 :
  let w := Sample.world_with Sample.body_blocks in
  let self := Sample.handler_for Sample.body_blocks in
  let env := Sample.env_ok Sample3.response_surrogate in
  let w' := world_after
              (proxy_request (lib := Sample.lib) env Sample.cfg self (u "POST")) w in
  upstream_returned w w' Sample3.response_surrogate
  /\ append_fault env (log_file_of Sample.cfg (write_date env w)) = None
  /\ summary_error (lib := Sample.lib) env self (u "POST") w Sample3.response_surrogate
     = Some Sample3.surrogate_error
  /\ result_of (proxy_request (lib := Sample.lib) env Sample.cfg self (u "POST")) w
     = Ok tt
  /\ wire w' = error_events Sample3.surrogate_error
  /\ fs w' !! log_file_of Sample.cfg (write_date env w)
     = Some (json_dumps (H := Sample.lib)
               (entry_of env Sample.cfg self w
                  {| model := JStr (u "m"); prompt_preview := u "ab cd" |}
                  Sample3.response_surrogate) ++ [10%N])
  /\ stdout w' = [u "[ERROR] Proxy error: " ++ exn_str Sample3.surrogate_error].
Proof.
  intros w self env w'.
  split; [eexists; vm_compute; apply list_elem_of_here|].
  split; [reflexivity|]. split; [vm_compute; reflexivity|].
  split; [vm_compute; reflexivity|]. split; [vm_compute; reflexivity|].
  split; vm_compute; reflexivity.
Qed.

(** The upstream answers 200 with a header that Latin-1 cannot encode:
    the status 200 and the header before it are buffered, [send_header]
    raises, and the 502 response is added behind them; neither the
    remaining header nor the body is sent. *)
Lemma unencodable_header_breaks_the_relay :
  let w := Sample.world_with Sample.body_blocks in
  let self := Sample.handler_for Sample.body_blocks in
  let env := Sample.env_ok Sample3.response_euro in
  let w' := world_after
              (proxy_request (lib := Sample.lib) env Sample.cfg self (u "POST")) w in
  upstream_returned w w' Sample3.response_euro
  /\ append_fault env (log_file_of Sample.cfg (write_date env w)) = None
  /\ summary_error (lib := Sample.lib) env self (u "POST") w
       Sample3.response_euro = None
  /\ header_failure (relayed_headers (lib := Sample.lib)
                       (Response.headers Sample3.response_euro))
     = Some Sample3.euro_error
  /\ result_of (proxy_request (lib := Sample.lib) env Sample.cfg self (u "POST")) w
     = Ok tt
  /\ wire w' = [SendResponse 200;
                SendHeader (u "content-type") (u "application/json");
                SendResponse 502;
                SendHeader (u "Content-Type") (u "application/json");
                EndHeaders;
                WfileWrite (map byte_of
                              (error_json (exn_str Sample3.euro_error)))]
  /\ (WfileWrite (Response.content Sample3.response_euro) ∉ wire w').
Proof.
  intros w self env w'.
  assert (Hw : wire w' = [SendResponse 200;
                SendHeader (u "content-type") (u "application/json");
                SendResponse 502;
                SendHeader (u "Content-Type") (u "application/json");
                EndHeaders;
                WfileWrite (map byte_of
                              (error_json (exn_str Sample3.euro_error)))])
    by (vm_compute; reflexivity).
  split; [eexists; vm_compute; apply list_elem_of_here|].
  split; [reflexivity|]. split; [vm_compute; reflexivity|].
  split; [vm_compute; reflexivity|]. split; [vm_compute; reflexivity|].
  split; [exact Hw|].
  rewrite Hw. intros H.
  repeat (apply elem_of_cons in H as [H|H];
          [first [discriminate H
                 |injection H as H; vm_compute in H; discriminate H]|]).
  by apply elem_of_nil in H.
Qed.

(** The surrogate U+DC80 stops [print] under the strict error handler only;
    U+D800 stops it under both. *)
Lemma stdout_handlers_example :
  stdout_error Strict [56448%N] <> None
  /\ stdout_error SurrogateEscape [56448%N] = None
  /\ stdout_error Strict [55296%N] = stdout_error SurrogateEscape [55296%N]
  /\ stdout_error SurrogateEscape [55296%N] <> None.
Proof. vm_compute. repeat split; discriminate. Qed.

(** C6, witness: the upstream refuses the connection. *)
Lemma upstream_failure_gives_502_witness :
  let w := Sample.world_with Sample.body_blocks in
  let self := Sample.handler_for Sample.body_blocks in
  let m := proxy_request (lib := Sample.lib) Sample.env_refused Sample.cfg
             self (u "POST") in
  let w' := world_after m w in
  let e := Sample.connection_refused in
  is_Exception e = true
  /\ upstream_raised w w' e
  /\ (exists rq, attempts w w' = [(rq, Raise e)])
  /\ wire w' = wire w
       ++ [SendResponse 502;
           SendHeader (u "Content-Type") (u "application/json");
           EndHeaders;
           WfileWrite (map byte_of (error_json (exn_str e)))]
  /\ encode (json_dumps (H := Sample.lib) (JObj [(u "error", JStr (exn_str e))]))
     = Ok (map byte_of (error_json (exn_str e)))
  /\ result_of m w = Ok tt.
Proof.
  intros w self m w' e.
  assert (Hup : upstream_raised w w' e)
    by (eexists; vm_compute; apply list_elem_of_here).
  split; [reflexivity|]. split; [exact Hup|].
  exact (upstream_failure_gives_502 (lib := Sample.lib) Sample.env_refused
           Sample.cfg self (u "POST") w e eq_refl Hup).
Defined.

(** C7, counterexample.  A content array that holds a number makes the
    preview fall back to the raw text while the token counts stay 5 and 7;
    a content that is a string gives an empty preview, not the raw text. *)
Lemma tokens_kept_and_preview_emptied :
  (parse_response Sample.response_bad_block
   = {| response_preview := raw_preview Sample.response_bad_block;
        input_tokens := JInt 5; output_tokens := JInt 7 |})
  /\ (parse_response Sample.response_string_content
      = {| response_preview := []; input_tokens := JInt 0;
           output_tokens := JInt 0 |}
      /\ raw_preview Sample.response_string_content
         = Sample.decoded Sample.content_string
      /\ raw_preview Sample.response_string_content <> []).
Proof. vm_compute. repeat split. discriminate. Qed.

(** C10, witness: a chunked body behind a request without Content-Length. *)
Lemma no_content_length_reads_nothing_witness :
  let chunked := Sample.body_chunked in
  let w := Sample.world_with chunked in
  let env := Sample.env_ok Sample.response_ok in
  let w' := world_after
              (proxy_request (lib := Sample.lib) env Sample.cfg
                 Sample.handler_bare (u "POST")) w in
  (headers_get (lib := Sample.lib) (headers Sample.handler_bare) (u "Content-Length") = None \/
   (exists v, headers_get (lib := Sample.lib) (headers Sample.handler_bare)
                (u "Content-Length") = Some v /\
              int_of_str (PyLib := Sample.lib) v = Ok 0))
  /\ rfile w' = chunked
  /\ exists rq, attempts w w' = [(rq, client_request env (length (calls w)) rq)]
                /\ Request.content rq = [].
Proof.
  intros chunked w env w'.
  assert (H : headers_get (lib := Sample.lib) (headers Sample.handler_bare)
                (u "Content-Length") = None) by reflexivity.
  split; [by left|].
  exact (no_content_length_reads_nothing (lib := Sample.lib) env Sample.cfg
           Sample.handler_bare (u "POST") w (or_introl H)).
Defined.

(** C8, witness: a write at 23:59:58 on 1 March 2026. *)
Lemma log_request_appends_to_the_file_of_the_day_witness :
  let env := Sample.env_ok Sample.response_ok in
  let w := Sample.world_with [] in
  let data := JObj [(u "status_code", JInt 200)] in
  let today := datetime_now env (clock w) in
  let other := datetime_now env 2 in
  let p := log_file_of Sample.cfg today in
  let w' := world_after (log_request (lib := Sample.lib) env Sample.cfg data) w in
  valid_datetime today /\ valid_datetime other /\ ~ same_day other today
  /\ append_fault env p = None
  /\ p = [u "data"; u "api-logs"; u "default"; u "api-log-2026-03-01.jsonl"]
  /\ result_of (log_request (lib := Sample.lib) env Sample.cfg data) w = Ok tt
  /\ fs w' = <[p := default [] (fs w !! p) ++ json_dumps (H := Sample.lib) data
                                           ++ [10%N]]> (fs w)
  /\ log_file_of Sample.cfg other <> p
  /\ fs w' !! log_file_of Sample.cfg other = fs w !! log_file_of Sample.cfg other.
Proof.
  intros env w data today other p w'.
  assert (Vt : valid_datetime today) by (vm_compute; repeat split; discriminate).
  assert (Vo : valid_datetime other) by (vm_compute; repeat split; discriminate).
  assert (Hne : ~ same_day other today) by (intros (_ & _ & H); discriminate H).
  destruct (log_request_appends_to_the_file_of_the_day (lib := Sample.lib)
              env Sample.cfg data w) as (Hp & Happ & Hother).
  destruct (Happ eq_refl) as [Hr Hfs].
  destruct (Hother other Vt Vo Hne) as [Hd Hl].
  split; [exact Vt|]. split; [exact Vo|]. split; [exact Hne|].
  split; [reflexivity|]. split; [vm_compute; reflexivity|].
  split; [exact Hr|]. split; [exact Hfs|]. split; [exact Hd|exact Hl].
Defined.

(** Two writes, one before and one after midnight. *)
Lemma midnight_rollover_example :
  let env := Sample.env_ok Sample.response_ok in
  let first := JObj [(u "path", JStr (u "/a"))] in
  let second := JObj [(u "path", JStr (u "/b"))] in
  let w1 := world_after (log_request (lib := Sample.lib) env Sample.cfg first)
               (Sample.world_with []) in
  let w2 := world_after (log_request (lib := Sample.lib) env Sample.cfg second)
               (tick w1) in
  let day1 := [u "data"; u "api-logs"; u "default"; u "api-log-2026-03-01.jsonl"] in
  let day2 := [u "data"; u "api-logs"; u "default"; u "api-log-2026-03-02.jsonl"] in
  fs w1 !! day1 = Some (json_dumps (H := Sample.lib) first ++ [10%N])
  /\ fs w1 !! day2 = None
  /\ fs w2 !! day1 = fs w1 !! day1
  /\ fs w2 !! day2 = Some (json_dumps (H := Sample.lib) second ++ [10%N]).
Proof. vm_compute. repeat split. Qed.

(** The request of the specification: text, image, text. *)
Lemma prompt_preview_follows_rule_witness :
  Sample.body_blocks <> []
  /\ parse_request (H := Sample.lib) Sample.body_blocks
     = Ok {| model := JStr (u "m"); prompt_preview := u "ab cd" |}.
Proof.
  split; [discriminate|].
  refine (prompt_preview_follows_rule (lib := Sample.lib) Sample.body_blocks
            _ _ _ _ eq_refl eq_refl eq_refl _).
  - discriminate.
  - intros blocks [= <-]. reflexivity.
Defined.

(** The two examples of the specification. *)
Lemma preview_examples :
  spec_preview (JArr Sample.blocks_ab_cd) = u "ab cd"
  /\ length (spec_preview (JStr (replicate 1000 65%N))) = 500%nat.
Proof. vm_compute. split; reflexivity. Qed.

(** A string of 500 characters or more leaves a preview of 500. *)
Lemma long_string_is_cut_to_500 (s : str) :
  (500 <= length s)%nat -> length (spec_preview (JStr s)) = 500%nat.
Proof. intros H. cbn [spec_preview]. rewrite length_take. lia. Qed.

(** The malformed body of the specification is forwarded as it is. *)
Lemma undecodable_body_is_forwarded_witness :
  let self := Sample.handler_for Sample.body_not_json in
  let w := Sample.world_with Sample.body_not_json in
  let env := Sample.env_ok Sample.response_ok in
  let w' := world_after
              (proxy_request (lib := Sample.lib) env Sample.cfg self (u "POST")) w in
  exists r,
    attempts w w'
    = [(upstream_request (lib := Sample.lib) self (u "POST") Sample.body_not_json, r)]
    /\ forall response,
         r = Ok response ->
         append_fault env (log_file_of Sample.cfg (write_date env w)) = None ->
         one_entry_appended (H := Sample.lib) w w'
           (log_file_of Sample.cfg (write_date env w))
           (entry_of env Sample.cfg self w no_fields response).
Proof.
  intros self w env w'.
  refine (undecodable_body_is_forwarded (lib := Sample.lib) env Sample.cfg
            self (u "POST") w 9 _ eq_refl _ eq_refl eq_refl).
  discriminate.
Defined.

(** * Further properties of the handler and the log writer *)

(** ** The headers sent upstream *)

Lemma dict_lookup_set {V} (d : list (str * V)) k v k' :
  dict_lookup (dict_set d k v) k'
  = if bool_decide (k = k') then Some v else dict_lookup d k'.
Proof.
  induction d as [|[k0 v0] d IH]; cbn.
  - done.
  - destruct (bool_decide_reflect (k0 = k)) as [->|Hne]; cbn.
    + by destruct (bool_decide (k = k')).
    + rewrite IH. destruct (bool_decide_reflect (k0 = k')) as [->|Hne'].
      * by rewrite bool_decide_eq_false_2 by congruence.
      * done.
Qed.

Lemma dict_set_keys {V} (d : list (str * V)) k v :
  (dict_set d k v).*1 = if bool_decide (k ∈ d.*1) then d.*1 else d.*1 ++ [k].
Proof.
  induction d as [|[k0 v0] d IH]; cbn.
  - done.
  - destruct (bool_decide_reflect (k0 = k)) as [->|Hne]; cbn.
    + rewrite bool_decide_eq_true_2 by (apply elem_of_cons; by left). done.
    + rewrite IH. destruct (bool_decide_reflect (k ∈ d.*1)) as [Hin|Hin].
      * rewrite bool_decide_eq_true_2 by (apply elem_of_cons; by right). done.
      * rewrite bool_decide_eq_false_2; [done|].
        rewrite elem_of_cons. intros [?|?]; congruence.
Qed.

Lemma dict_set_NoDup {V} (d : list (str * V)) k v :
  NoDup d.*1 -> NoDup (dict_set d k v).*1.
Proof.
  intros H. rewrite dict_set_keys. case_bool_decide as Hin; [done|].
  apply NoDup_app. split; [done|]. split; [|apply NoDup_singleton].
  intros x Hx ->%list_elem_of_singleton. done.
Qed.

Lemma last_value_snoc hs kv k :
  last_value (hs ++ [kv]) k
  = if bool_decide (kv.1 = k) then Some kv.2 else last_value hs k.
Proof.
  unfold last_value. rewrite filter_app, filter_cons, filter_nil.
  case_bool_decide as Hk.
  - rewrite decide_True by done. by rewrite last_snoc.
  - rewrite decide_False by done. by rewrite app_nil_r.
Qed.

Section More.
Context {lib : PyLib} (env : Env) (cfg : Config).

Lemma outbound_fold hs acc :
  let step := fun (acc : list (str * str)) (kv : str * str) =>
                if lower_not_in [u "host"; u "content-length"] kv.1
                then dict_set acc kv.1 kv.2 else acc in
  NoDup acc.*1 ->
  NoDup (fold_left step hs acc).*1 /\
  forall k,
    dict_lookup (fold_left step hs acc) k
    = match last_value hs k with
      | Some v => if lower_not_in [u "host"; u "content-length"] k
                  then Some v else dict_lookup acc k
      | None => dict_lookup acc k
      end.
Proof.
  intros step. revert acc. induction hs as [|[k0 v0] hs IH] using rev_ind; intros acc Hnd.
  - done.
  - rewrite fold_left_app. cbn [fold_left].
    destruct (IH acc Hnd) as [Hnd' Hl]. split.
    + unfold step at 1. cbn. destruct (lower_not_in _ k0); [|done].
      by apply dict_set_NoDup.
    + intros k. rewrite last_value_snoc. cbn [fst snd].
      unfold step at 1. cbn [fst snd].
      destruct (bool_decide_reflect (k0 = k)) as [->|Hne].
      * destruct (lower_not_in _ k) eqn:Hk.
        -- rewrite dict_lookup_set. by rewrite bool_decide_eq_true_2.
        -- rewrite Hl. destruct (last_value hs k); by rewrite ?Hk.
      * destruct (lower_not_in _ k0).
        -- rewrite dict_lookup_set, bool_decide_eq_false_2 by done. apply Hl.
        -- apply Hl.
Qed.

(** X1.  The headers sent upstream form a dictionary with each name once:
    a name whose lower-case form is host or content-length is absent, and
    every other name carries the value of the last inbound header with
    exactly that name. *)
Theorem outbound_headers_lookup hs k :
  NoDup (outbound_headers hs).*1 /\
  dict_lookup (outbound_headers hs) k
  = if lower_not_in [u "host"; u "content-length"] k
    then last_value hs k else None.
Proof.
  destruct (outbound_fold hs [] (NoDup_nil_2)) as [Hnd Hl]. split; [exact Hnd|].
  unfold outbound_headers. rewrite Hl. cbn.
  destruct (last_value hs k), (lower_not_in _ k); done.
Qed.

Ltac run_cases self method w :=
  destruct (handled_after env cfg self method w)
    as [ex w1 Hn Hr Hc Hf Hw
       |n0 ex w1 Hn Hq Hr Hc Hf Hw
       |n0 rq0 ex w1 Hn Hq up Hup Hx Hr Hc Hf Hw
       |n0 rq0 ex w1 Hn Hq up Hup Hx Hr Hc Hf Hw
       |n0 rq0 rs0 ex w1 Hn Hq up Hup Ha Hx Hr Hc Hf Hw
       |n0 rq0 rs0 ex w1 Hn Hq up Hup Ha Hx Hr Hc Hf Hw
       |n0 rq0 rs0 ex w1 Hn Hq up Hup Ha Hprint Hr Hc Hf Hw
       |n0 rq0 rs0 ex w1 Hn Hq up Hup Ha Hprint Hhdr Hr Hc Hf Hw
       |n0 rq0 rs0 w1 Hn Hq up Hup Ha Hprint Hhdr Hr Hc Hf Hw].

Lemma sent_none w w' : wire w' = wire w -> sent w w' = [].
Proof. intros H. unfold sent. rewrite H. apply drop_all. Qed.

Lemma sent_app w w' l : wire w' = wire w ++ l -> sent w w' = l.
Proof. intros H. unfold sent. rewrite H. apply drop_app_length. Qed.

Lemma body_and_rest n w : request_body_of n w ++ unread_after n w = rfile w.
Proof.
  unfold request_body_of, unread_after. destruct (0 <? n); [|done].
  apply take_drop.
Qed.

(** X2.  The body of an upstream call is what was read from the inbound
    connection, followed there by what is left unread: no byte is lost or
    changed, at most the announced number is read, and exactly that number
    when the connection holds as many.  The call carries the handler's
    method and the fixed upstream address followed by the request path. *)
Theorem forwarded_body_is_what_was_read self method w rq r :
  let w' := world_after (proxy_request env cfg self method) w in
  (rq, r) ∈ attempts w w' ->
  exists n,
    content_length_header self = Ok n
    /\ Request.method rq = method
    /\ Request.url rq = ANTHROPIC_API_URL ++ path self
    /\ Request.content rq ++ rfile w' = rfile w
    /\ (length (Request.content rq) <= Z.to_nat n)%nat
    /\ (0 < n -> (Z.to_nat n <= length (rfile w))%nat ->
        length (Request.content rq) = Z.to_nat n).
Proof.
  intros w0. subst w0. run_cases self method w.
  1,2: rewrite (attempts_none _ _ Hc); by intros ?%elem_of_nil.
  all: rewrite (attempts_app _ _ _ Hc);
       intros [= -> _]%list_elem_of_singleton;
       exists n0; rewrite Hr; cbn;
       (split; [done|]); (split; [done|]); (split; [done|]);
       (split; [apply body_and_rest|]);
       unfold request_body_of; destruct (0 <? n0) eqn:Hpos;
       rewrite ?length_take; cbn; split; try lia.
Qed.

Lemma attempts_of_run self method w :
  let w' := world_after (proxy_request env cfg self method) w in
  match content_length_header self with
  | Raise _ => attempts w w' = []
  | Ok n =>
      match parse_request (request_body_of n w) with
      | Raise _ => attempts w w' = []
      | Ok _ =>
          let rq := upstream_request self method (request_body_of n w) in
          attempts w w' = [(rq, client_request env (length (calls w)) rq)]
      end
  end.
Proof.
  intros w0. subst w0. run_cases self method w; rewrite Hn; try rewrite Hq.
  1,2: by rewrite (attempts_none _ _ Hc).
  all: rewrite (attempts_app _ _ _ Hc); cbn; by subst up; rewrite Hup.
Qed.


(** X4.  A Content-Length that [int] rejects stops the request before
    anything else happens: the exception leaves the handler, no byte is
    read, no upstream call is made, nothing is sent and nothing is
    logged. *)
Theorem bad_content_length_stops_the_request self method w e :
  let m := proxy_request env cfg self method in
  content_length_header self = Raise e ->
  result_of m w = Raise e
  /\ rfile (world_after m w) = rfile w
  /\ attempts w (world_after m w) = []
  /\ sent w (world_after m w) = []
  /\ fs (world_after m w) = fs w.
Proof.
  intros m He. subst m. run_cases self method w; rewrite He in Hn;
    try discriminate. injection Hn as <-.
  by rewrite (attempts_none _ _ Hc), (sent_none _ _ Hw).
Qed.

(** X5.  A negative Content-Length is treated like an absent one: nothing
    is read and the one upstream call has an empty body. *)
Theorem negative_content_length_reads_nothing self method w v n :
  let w' := world_after (proxy_request env cfg self method) w in
  headers_get (headers self) (u "Content-Length") = Some v ->
  int_of_str v = Ok n -> n < 0 ->
  rfile w' = rfile w /\
  let rq := upstream_request self method [] in
  attempts w w' = [(rq, client_request env (length (calls w)) rq)].
Proof.
  intros w0 Hh Hi Hneg. subst w0.
  assert (Hz : content_length_header self = Ok n)
    by (unfold content_length_header; by rewrite Hh).
  assert (Hb : request_body_of n w = [])
    by (unfold request_body_of; by rewrite (proj2 (Z.ltb_ge 0 n)) by lia).
  assert (Hu : unread_after n w = rfile w)
    by (unfold unread_after; by rewrite (proj2 (Z.ltb_ge 0 n)) by lia).
  pose proof (attempts_of_run self method w) as H.
  cbv zeta in H. rewrite Hz, Hb in H. cbn in H.
  split; [|exact H].
  run_cases self method w; rewrite Hz in Hn; try discriminate;
    injection Hn as <-; rewrite Hr; exact Hu.
Qed.

(** X8.  Handling a request never rewrites the log: every file keeps its
    former content as a prefix of the new one, and no file disappears. *)
Theorem handler_only_appends self method w p :
  let w' := world_after (proxy_request env cfg self method) w in
  default [] (fs w !! p) `prefix_of` default [] (fs w' !! p)
  /\ (is_Some (fs w !! p) -> is_Some (fs w' !! p)).
Proof.
  intros w0. subst w0. run_cases self method w;
    try (rewrite Hf; split; [reflexivity|done]).
  all: rewrite Hf;
       destruct (decide (p = log_file_of cfg (write_date env w))) as [->|Hne];
       [split; [rewrite lookup_insert_eq; cbn; by eexists|];
        intros _; rewrite lookup_insert_eq; by eexists
       |split; [|intros H]; rewrite lookup_insert_ne by congruence; done].
Qed.

Lemma headers_no_status (l : list (str * str)) :
  filter (fun ev => is_status ev = true)
         (map (fun kv : str * str => SendHeader kv.1 kv.2) l) = [].
Proof.
  induction l as [|kv l IH]; [done|].
  cbn [map]. rewrite filter_cons_False by done. exact IH.
Qed.

Lemma relay_events_statuses status hs body :
  filter (fun ev => is_status ev = true) (relay_events status hs body)
  = [SendResponse status].
Proof.
  unfold relay_events. rewrite !filter_app, headers_no_status. reflexivity.
Qed.

Lemma broken_relay_statuses status hs e :
  filter (fun ev => is_status ev = true) (broken_relay_events status hs e)
  = [SendResponse status; SendResponse 502].
Proof.
  unfold broken_relay_events. rewrite !filter_app, headers_no_status.
  reflexivity.
Qed.

(** X12.  A request that returns normally has called [send_response] once,
    with the upstream status or with 502, or twice, with the upstream
    status and then 502: the second happens when the relay breaks off
    after the status line, and the two status lines then reach the caller
    in one response. *)
Theorem status_lines_of_a_request self method w :
  let m := proxy_request env cfg self method in
  result_of m w = Ok tt ->
  exists codes,
    filter (fun ev => is_status ev = true) (sent w (world_after m w))
    = map SendResponse codes
    /\ (codes = [502] \/
        exists response,
          upstream_returned w (world_after m w) response /\
          (codes = [Response.status_code response] \/
           codes = [Response.status_code response; 502])).
Proof.
  intros m. subst m. run_cases self method w; try discriminate; intros _.
  1,2,3: rewrite (sent_app _ _ _ Hw); exists [502]; split; [done|by left].
  - rewrite (sent_app _ _ _ Hw), broken_relay_statuses.
    exists [Response.status_code rs0; 502]. split; [done|].
    right. exists rs0. split; [|by right].
    exists up. rewrite (attempts_app _ _ _ Hc). apply list_elem_of_here.
  - rewrite (sent_app _ _ _ Hw), relay_events_statuses.
    exists [Response.status_code rs0]. split; [done|].
    right. exists rs0. split; [|by left].
    exists up. rewrite (attempts_app _ _ _ Hc). apply list_elem_of_here.
Qed.

(** X10.  No response is relayed without being logged: when what was sent
    is the relay of a response, one entry for a response with that status
    and that body has been appended to the log file of the day. *)
Theorem relayed_response_was_logged self method w response :
  let w' := world_after (proxy_request env cfg self method) w in
  sent w w' = relay_events (Response.status_code response)
                (Response.headers response) (Response.content response) ->
  exists rq r,
    one_entry_appended w w' (log_file_of cfg (write_date env w))
      (entry_of env cfg self w rq r)
    /\ Response.status_code r = Response.status_code response
    /\ Response.content r = Response.content response.
Proof.
  intros w0. subst w0. run_cases self method w.
  1,2,4,6: rewrite (sent_none _ _ Hw); discriminate.
  4: (rewrite (sent_app _ _ _ Hw); intros H;
      apply (f_equal (filter (fun ev => is_status ev = true))) in H;
      rewrite broken_relay_statuses, relay_events_statuses in H;
      discriminate H).
  1,2,3: rewrite (sent_app _ _ _ Hw); intros H;
       pose proof (f_equal length H) as HL;
       unfold error_events, relay_events in H, HL;
       rewrite !length_app, length_map in HL; cbn in HL;
       destruct (relayed_headers (Response.headers response)); cbn in HL;
       [|lia];
       apply (f_equal (fun l => match l with
                                | _ :: SendHeader k _ :: _ => length k
                                | _ => 0%nat
                                end)) in H;
       vm_compute in H; discriminate H.
  rewrite (sent_app _ _ _ Hw). intros H. exists rq0, rs0. split; [done|].
  unfold relay_events in H. cbn [app] in H. injection H as Hs H.
  split; [done|].
  apply (f_equal (last)) in H. rewrite !last_app in H. cbn in H. congruence.
Qed.


Lemma last_nonempty {A} (x : A) l : is_Some (last (x :: l)).
Proof.
  revert x. induction l as [|y l IH]; intros x; [by eexists|].
  rewrite last_cons_cons. apply IH.
Qed.

Lemma text_preview_short blocks p :
  text_preview blocks = Ok p -> exists s, p = take 500 s.
Proof.
  unfold text_preview. destruct (text_parts_of blocks); [|done].
  destruct (str_join _ _) as [j|]; [|done]. intros [= <-]. by exists j.
Qed.

(** What the request parse gives, by the shape of the body. *)
Lemma parse_request_outcome body :
  match parse_request body with
  | Ok rq => prompt_preview rq = [] \/ exists s, prompt_preview rq = take 500 s
  | Raise e =>
      is_JSONDecodeError e = false /\
      (json_loads body = Raise e \/
       (exists v, json_loads body = Ok v) /\
       (exn_cls e = AttributeError \/ exn_cls e = TypeError \/
        exn_cls e = KeyError))
  end.
Proof.
  unfold parse_request. destruct body as [|b0 body]; [by left|].
  set (bd := b0 :: body).
  unfold try_except, parse_request_body, mbind, M_bind, lift.
  destruct (json_loads bd) as [v|e] eqn:Hv.
  2:{ destruct (is_JSONDecodeError e) eqn:He; cbn; [by left|]. split; [done|by left]. }
  destruct v as [| | | | | |d];
    try (cbn; split; [done|]; right; split; [by eexists|by left]).
  cbn [py_get]. cbn.
  destruct (dict_get d (u "messages") (JArr [])) as [| | | | |msgs|md] eqn:Hm; cbn.
  - by left.
  - destruct b; cbn; [|by left].
    split; [done|]. right. split; [by eexists|]. right. by left.
  - destruct (negb (z =? 0)); cbn; [|by left].
    split; [done|]. right. split; [by eexists|]. right. by left.
  - destruct f; cbn; try by left.
    all: split; [done|]; right; (split; [by eexists|]); right; by left.
  - destruct s as [|c s]; cbn; [by left|].
    destruct (last_nonempty c s) as [x ->]. cbn.
    split; [done|]. right. split; [by eexists|]. by left.
  - destruct msgs as [|m0 msgs]; cbn; [by left|].
    destruct (last_nonempty m0 msgs) as [x ->].
    destruct x as [| | | | | |m];
      try (cbn; split; [done|]; right; split; [by eexists|by left]).
    cbn [py_get]. cbn.
    destruct (dict_get m (u "content") (JStr [])) as [| | | |s|blocks|]; cbn;
      try by left.
    + right. by eexists.
    + destruct (text_preview blocks) as [p|e] eqn:Hp; cbn.
      * right. by apply (text_preview_short blocks).
      * destruct (text_preview_raise_class _ _ Hp) as [H|H];
          unfold is_JSONDecodeError; rewrite H; cbn; rewrite H;
          (split; [done|]); right; (split; [by eexists|]); auto.
  - destruct md; cbn; [by left|].
    split; [done|]. right. split; [by eexists|]. right. by right.
Qed.

(** X15.  The exceptions that leave the request parse: never a
    JSONDecodeError; either the exception [json.loads] itself raised, or,
    for a body that was parsed, an AttributeError, a TypeError or a
    KeyError (never the IndexError of [messages[-1]], which the test
    [if messages] excludes). *)
Theorem request_parse_escapes body e :
  parse_request body = Raise e ->
  is_JSONDecodeError e = false /\
  (json_loads body = Raise e \/
   (exists v, json_loads body = Ok v) /\
   (exn_cls e = AttributeError \/ exn_cls e = TypeError \/
    exn_cls e = KeyError)).
Proof.
  intros H. pose proof (parse_request_outcome body) as Ho.
  by rewrite H in Ho.
Qed.

(** X6.  Both previews hold at most 500 characters, whatever the request
    body and the response are. *)
Theorem previews_are_bounded body rq response :
  parse_request body = Ok rq ->
  (length (prompt_preview rq) <= 500)%nat /\
  (length (response_preview (parse_response response)) <= 500)%nat.
Proof.
  intros H. split.
  - pose proof (parse_request_outcome body) as Ho. rewrite H in Ho.
    destruct Ho as [->|[s ->]]; [cbn; lia|]. rewrite length_take. lia.
  - pose proof (parse_response_cases response) as Hr. cbv zeta in Hr.
    assert (Hraw : (length (raw_preview response) <= 500)%nat)
      by (unfold raw_preview; rewrite length_take; lia).
    destruct (Response.json response) as [[| | | | | |d]|e];
      try (rewrite Hr; exact Hraw).
    destruct (dict_get d (u "usage") (JObj [])) as [| | | | | |usage];
      try (rewrite Hr; exact Hraw).
    destruct Hr as (_ & _ & ->).
    destruct (dict_get d (u "content") (JArr [])) as [| | | | |[|c l]|];
      try (cbn; lia).
    destruct (forallb typed_block (c :: l)); [|exact Hraw].
    unfold spec_text_preview. rewrite length_take. lia.
Qed.



Lemma same_day_same_file d1 d2 :
  same_day d1 d2 -> log_file_of cfg d1 = log_file_of cfg d2.
Proof.
  intros (Hy & Hm & Hd). unfold log_file_of, strftime_Ymd.
  by rewrite Hy, Hm, Hd.
Qed.

Lemma log_request_run data w :
  let p := log_file_of cfg (datetime_now env (clock w)) in
  log_request env cfg data w
  = match append_fault env p with
    | Some e => (Raise e, tick w)
    | None =>
        (Ok tt,
         {| rfile := rfile w; wire := wire w;
            fs := <[p := default [] (fs w !! p) ++ json_dumps data ++ [10%N]]>
                    (fs w);
            calls := calls w; stdout := stdout w; clock := S (clock w) |})
    end.
Proof.
  intros p. unfold log_request, get_log_file, file_append, mbind, M_bind, now.
  cbn. fold p. by destruct (append_fault env p).
Qed.

(** X9.  Two writes on the same calendar day go to the same file, the
    second record right after the first; every other file is as before. *)
Theorem same_day_writes_share_a_file first second w wm :
  let d1 := datetime_now env (clock w) in
  let d2 := datetime_now env (clock wm) in
  let p := log_file_of cfg d1 in
  let w1 := world_after (log_request env cfg first) w in
  let w2 := world_after (log_request env cfg second) wm in
  same_day d1 d2 ->
  append_fault env p = None ->
  fs wm = fs w1 ->
  fs w2 !! p
  = Some (default [] (fs w !! p)
            ++ (json_dumps first ++ [10%N]) ++ (json_dumps second ++ [10%N]))
  /\ forall q, q <> p -> fs w2 !! q = fs w !! q.
Proof.
  intros d1 d2 p w1 w2 Hday Hok Hm. subst w1 w2. unfold world_after in *.
  rewrite log_request_run in Hm. rewrite log_request_run.
  fold d1 in Hm. fold p in Hm. fold d2.
  rewrite <- (same_day_same_file d1 d2 Hday). fold p.
  rewrite Hok in *. cbn in *. rewrite Hm. split.
  - rewrite !lookup_insert_eq. cbn. by rewrite <- !app_assoc.
  - intros q Hq. by rewrite !lookup_insert_ne by congruence.
Qed.


Lemma escape_char_printable c : Forall printable (escape_char c).
Proof.
  unfold escape_char.
  repeat (match goal with
          | |- Forall printable (if ?b then _ else _) => destruct b eqn:?
          end);
    first [ apply esc4_printable
          | apply Forall_app_2; apply esc4_printable
          | match goal with
            | H : (_ && (c <=? 126)%N) = true |- _ =>
                apply andb_prop in H as [?%N.leb_le ?%N.leb_le];
                constructor; [by split|constructor]
            end
          | repeat (constructor; [unfold printable; lia|]); constructor ].
Qed.

Lemma json_string_printable s : Forall printable (json_string s).
Proof.
  unfold json_string.
  apply Forall_app_2; [constructor; [unfold printable; lia|constructor]|].
  apply Forall_app_2; [|constructor; [unfold printable; lia|constructor]].
  induction s as [|c s IH]; [constructor|].
  cbn [flat_map]. apply Forall_app_2; [apply escape_char_printable|exact IH].
Qed.

Lemma json_dumps_printable (Hf : float_repr_printable) v :
  Forall printable (json_dumps v).
Proof.
  revert v. fix IH 1. intros [| [|] |z|f|s|l|d].
  - by apply literal_printable.
  - by apply literal_printable.
  - by apply literal_printable.
  - apply str_of_Z_printable.
  - destruct f as [| [|] | |]; first [apply Hf|by apply literal_printable].
  - apply json_string_printable.
  - change (json_dumps (JArr l))
      with (u "[" ++ (fix items (l : list json) : str :=
                        match l with
                        | [] => []
                        | x :: r =>
                            match r with
                            | [] => json_dumps x
                            | _ => json_dumps x ++ u ", " ++ items r
                            end
                        end) l ++ u "]").
    apply Forall_app_2; [by apply literal_printable|].
    apply Forall_app_2; [|by apply literal_printable].
    induction l as [|x r IHl]; [constructor|].
    destruct r as [|y r]; [apply IH|].
    apply Forall_app_2; [apply IH|].
    apply Forall_app_2; [by apply literal_printable|exact IHl].
  - change (json_dumps (JObj d))
      with (u "{" ++ (fix items (d : list (str * json)) : str :=
                        match d with
                        | [] => []
                        | (k, x) :: r =>
                            match r with
                            | [] => json_string k ++ u ": " ++ json_dumps x
                            | _ => json_string k ++ u ": " ++ json_dumps x
                                     ++ u ", " ++ items r
                            end
                        end) d ++ u "}").
    apply Forall_app_2; [by apply literal_printable|].
    apply Forall_app_2; [|by apply literal_printable].
    induction d as [|[k x] r IHd]; [constructor|].
    destruct r as [|y r].
    + apply Forall_app_2; [apply json_string_printable|].
      apply Forall_app_2; [by apply literal_printable|apply IH].
    + apply Forall_app_2; [apply json_string_printable|].
      apply Forall_app_2; [by apply literal_printable|].
      apply Forall_app_2; [apply IH|].
      apply Forall_app_2; [by apply literal_printable|exact IHd].
Qed.

(** X7.  A log record is one line of printable ASCII: what is appended is
    the serialized record, which holds no newline, no carriage return and
    no other control or non-ASCII character, and then one newline. *)
Theorem log_record_is_one_line data w :
  let p := log_file_of cfg (datetime_now env (clock w)) in
  let w' := world_after (log_request env cfg data) w in
  float_repr_printable ->
  append_fault env p = None ->
  exists line,
    fs w' !! p = Some (default [] (fs w !! p) ++ line ++ [10%N])
    /\ Forall printable line
    /\ (10%N ∉ line) /\ (13%N ∉ line).
Proof.
  intros p w0 Hf Hok. subst w0. unfold world_after.
  rewrite log_request_run. fold p. rewrite Hok. cbn.
  exists (json_dumps data). rewrite lookup_insert_eq.
  pose proof (json_dumps_printable Hf data) as Hp.
  split; [done|]. split; [done|].
  rewrite Forall_forall in Hp.
  split; intros Hin; apply Hp in Hin; unfold printable in Hin; lia.
Qed.


Lemma escape_char_unescaped c : unescaped c -> escape_char c = [c].
Proof.
  intros (Hr & H34 & H92). unfold escape_char.
  rewrite (proj2 (N.eqb_neq c 34)) by done.
  rewrite (proj2 (N.eqb_neq c 92)) by done.
  rewrite !(proj2 (N.eqb_neq c _)) by lia.
  rewrite (proj2 (N.leb_le 32 c)), (proj2 (N.leb_le c 126)) by lia. done.
Qed.

Lemma json_string_unescaped s : Forall unescaped s -> json_string s = quoted s.
Proof.
  intros H. unfold json_string, quoted. do 2 f_equal.
  induction H as [|c s Hc _ IH]; [done|].
  cbn [flat_map]. by rewrite (escape_char_unescaped c Hc), IH.
Qed.

Lemma literal_unescaped (lit : string) :
  forallb (fun c => (32 <=? c) && (c <=? 126) && negb (c =? 34)
                    && negb (c =? 92))%N (u lit) = true ->
  Forall unescaped (u lit).
Proof.
  intros H. apply Forall_forall. intros c Hc%list_elem_of_In.
  rewrite forallb_forall in H. apply H in Hc.
  apply andb_prop in Hc as [Hc H92]. apply andb_prop in Hc as [Hc H34].
  apply andb_prop in Hc as [?%N.leb_le ?%N.leb_le].
  apply negb_true_iff, N.eqb_neq in H92, H34. by repeat split.
Qed.

(** X13.  GET /health answers 200 with the JSON object of the status ok and
    the project name; it reads nothing from the connection, calls no
    upstream and writes no log. *)
Theorem health_check_answers self w :
  let m := do_GET env cfg self in
  path self = u "/health" ->
  Forall unescaped (PROJECT_NAME cfg) ->
  result_of m w = Ok tt
  /\ sent w (world_after m w)
     = [SendResponse 200;
        SendHeader (u "Content-Type") (u "application/json");
        EndHeaders;
        WfileWrite
          (map byte_of
             (u "{" ++ quoted (u "status") ++ u ": " ++ quoted (u "ok")
                ++ u ", " ++ quoted (u "project") ++ u ": "
                ++ quoted (PROJECT_NAME cfg) ++ u "}"))]
  /\ attempts w (world_after m w) = []
  /\ fs (world_after m w) = fs w
  /\ rfile (world_after m w) = rfile w.
Proof.
  intros m Hp Hproj. subst m. unfold result_of, world_after.
  rewrite (do_GET_health_run _ _ _ _ Hp). cbn.
  split; [done|]. split.
  - unfold sent. cbn. rewrite drop_app_length.
    unfold health_json.
    rewrite !(json_string_unescaped (u _)) by (by apply literal_unescaped).
    rewrite (json_string_unescaped _ Hproj).
    unfold quoted. cbn [app]. rewrite <- !app_assoc. reflexivity.
  - split; [|done]. unfold attempts. cbn. apply drop_all.
Qed.

Lemma omap_relayed hs :
  omap lowered_header
       (map (fun kv : str * str => SendHeader kv.1 kv.2) (relayed_headers hs))
  = map (fun kv => (str_lower kv.1, kv.2)) (relayed_headers hs).
Proof. induction (relayed_headers hs) as [|kv l IH]; [done|]. cbn. by rewrite IH. Qed.

Lemma relayed_names_kept hs :
  filter (fun kv : str * str =>
            kv.1 ∈ [u "transfer-encoding"; u "content-encoding";
                    u "content-length"])
         (map (fun kv => (str_lower kv.1, kv.2)) (relayed_headers hs)) = [].
Proof.
  unfold relayed_headers.
  induction hs as [|kv hs IH]; [done|].
  rewrite filter_cons. case_decide as Hk; [|exact IH].
  cbn [map]. rewrite filter_cons_False; [exact IH|].
  cbn. unfold lower_not_in in Hk.
  by apply negb_true_iff, bool_decide_eq_false in Hk.
Qed.

(** X14.  When a response is relayed (the log append, the print of the
    summary line and every [send_header] succeed), exactly one of the
    headers sent is named Transfer-Encoding, Content-Encoding or
    Content-Length in any case: the Content-Length the handler computes
    from the body. *)
Theorem one_content_length_is_sent self method w response :
  let w' := world_after (proxy_request env cfg self method) w in
  lower_content_length ->
  upstream_returned w w' response ->
  append_fault env (log_file_of cfg (write_date env w)) = None ->
  summary_error env self method w response = None ->
  header_failure (relayed_headers (Response.headers response)) = None ->
  filter (fun kv : str * str =>
            kv.1 ∈ [u "transfer-encoding"; u "content-encoding";
                    u "content-length"])
         (omap lowered_header (sent w w'))
  = [(u "content-length",
      str_of_Z (Z.of_nat (length (Response.content response))))].
Proof.
  intros w0 Hlow. subst w0. unfold upstream_returned. run_cases self method w.
  1,2: rewrite (attempts_none _ _ Hc); by intros [? ?%elem_of_nil].
  1,2: rewrite (attempts_app _ _ _ Hc);
       by intros [? [=]%list_elem_of_singleton].
  1,2: intros _ Hnone; congruence.
  1,2: rewrite (attempts_app _ _ _ Hc);
       intros [y [= _ ->]%list_elem_of_singleton] _ Hp' Hh'; congruence.
  rewrite (attempts_app _ _ _ Hc).
  intros [y [= _ ->]%list_elem_of_singleton] _ _ _.
  rewrite (sent_app _ _ _ Hw). unfold relay_events.
  rewrite !omap_app, omap_relayed, !filter_app, relayed_names_kept.
  cbn. rewrite Hlow. reflexivity.
Qed.

(** X17.  Two dates give the same log file exactly when they are the same
    calendar day: the time of day never matters, the day always does. *)
Theorem one_log_file_per_day d1 d2 :
  valid_datetime d1 -> valid_datetime d2 ->
  (log_file_of cfg d1 = log_file_of cfg d2 <-> same_day d1 d2).
Proof.
  intros V1 V2. split; [by apply log_file_of_inj|apply same_day_same_file].
Qed.

End More.

(** * Instances of the further properties *)

(** X2, witness: a second request waits behind the body that is forwarded. *)
Lemma forwarded_body_is_what_was_read_witness :
  let w := Sample.world_with (Sample.body_blocks ++ Sample.body_array) in
  let self := Sample.handler_for Sample.body_blocks in
  let env := Sample.env_ok Sample.response_ok in
  let w' := world_after
              (proxy_request (lib := Sample.lib) env Sample.cfg self (u "POST")) w in
  let rq := upstream_request (lib := Sample.lib) self (u "POST") Sample.body_blocks in
  (rq, Ok Sample.response_ok) ∈ attempts w w'
  /\ rfile w' = Sample.body_array
  /\ exists n,
       content_length_header (lib := Sample.lib) self = Ok n
       /\ Request.method rq = u "POST"
       /\ Request.url rq = ANTHROPIC_API_URL ++ path self
       /\ Request.content rq ++ rfile w' = rfile w
       /\ (length (Request.content rq) <= Z.to_nat n)%nat
       /\ (0 < n -> (Z.to_nat n <= length (rfile w))%nat ->
           length (Request.content rq) = Z.to_nat n).
Proof.
  intros w self env w' rq.
  assert (H : (rq, Ok Sample.response_ok) ∈ attempts w w')
    by (vm_compute; apply list_elem_of_here).
  split; [exact H|]. split; [reflexivity|].
  exact (forwarded_body_is_what_was_read (lib := Sample.lib) env Sample.cfg
           self (u "POST") w rq (Ok Sample.response_ok) H).
Defined.

(** X4, witness: the header content-length: abc. *)
Lemma bad_content_length_stops_the_request_witness :
  let self := Sample2.handler_announcing (u "abc") in
  let w := Sample.world_with Sample.body_array in
  let e := Exn ValueError (u "invalid literal for int() with base 10") in
  let m := proxy_request (lib := Sample.lib) (Sample.env_ok Sample.response_ok)
             Sample.cfg self (u "POST") in
  content_length_header (lib := Sample.lib) self = Raise e
  /\ result_of m w = Raise e
  /\ rfile (world_after m w) = rfile w
  /\ attempts w (world_after m w) = []
  /\ sent w (world_after m w) = []
  /\ fs (world_after m w) = fs w.
Proof.
  intros self w e m. split; [reflexivity|].
  exact (bad_content_length_stops_the_request (lib := Sample.lib)
           (Sample.env_ok Sample.response_ok) Sample.cfg self (u "POST") w e
           eq_refl).
Defined.

(** X5, witness: the header content-length: -5. *)
Lemma negative_content_length_reads_nothing_witness :
  let self := Sample2.handler_announcing (u "-5") in
  let w := Sample.world_with Sample.body_array in
  let env := Sample.env_ok Sample.response_ok in
  let w' := world_after
              (proxy_request (lib := Sample2.lib) env Sample.cfg self (u "POST")) w in
  headers_get (lib := Sample2.lib) (headers self) (u "Content-Length")
  = Some (u "-5")
  /\ int_of_str (PyLib := Sample2.lib) (u "-5") = Ok (-5)
  /\ rfile w' = rfile w
  /\ attempts w w'
     = [(upstream_request (lib := Sample2.lib) self (u "POST") [],
         Ok Sample.response_ok)].
Proof.
  intros self w env w'. split; [reflexivity|]. split; [reflexivity|].
  refine (negative_content_length_reads_nothing (lib := Sample2.lib) env
            Sample.cfg self (u "POST") w (u "-5") (-5) eq_refl eq_refl _).
  reflexivity.
Defined.

(** X6, witness. *)
Lemma previews_are_bounded_witness :
  let rq := {| model := JStr (u "m"); prompt_preview := u "ab cd" |} in
  parse_request (H := Sample.lib) Sample.body_blocks = Ok rq
  /\ (length (prompt_preview rq) <= 500)%nat
  /\ (length (response_preview (parse_response Sample.response_ok)) <= 500)%nat.
Proof.
  intros rq. split; [reflexivity|].
  exact (previews_are_bounded (lib := Sample.lib) Sample.body_blocks rq
           Sample.response_ok eq_refl).
Defined.

(** X7, witness: a preview that holds a newline. *)
Lemma log_record_is_one_line_witness :
  let env := Sample.env_ok Sample.response_ok in
  let w := Sample.world_with [] in
  let data := JObj [(u "prompt_preview", JStr [97; 10; 98]%N)] in
  let p := log_file_of Sample.cfg (datetime_now env (clock w)) in
  let w' := world_after (log_request (lib := Sample.lib) env Sample.cfg data) w in
  float_repr_printable (H := Sample.lib)
  /\ append_fault env p = None
  /\ exists line,
       fs w' !! p = Some (default [] (fs w !! p) ++ line ++ [10%N])
       /\ Forall printable line
       /\ (10%N ∉ line) /\ (13%N ∉ line).
Proof.
  intros env w data p w'.
  assert (Hf : float_repr_printable (H := Sample.lib))
    by (intros f; by apply literal_printable).
  split; [exact Hf|]. split; [reflexivity|].
  exact (log_record_is_one_line (lib := Sample.lib) env Sample.cfg data w
           Hf eq_refl).
Defined.

(** X9, witness: writes at 23:59:58 and 23:59:59. *)
Lemma same_day_writes_share_a_file_witness :
  let env := Sample.env_ok Sample.response_ok in
  let first := JObj [(u "path", JStr (u "/a"))] in
  let second := JObj [(u "path", JStr (u "/b"))] in
  let w := Sample.world_with [] in
  let w1 := world_after (log_request (lib := Sample.lib) env Sample.cfg first) w in
  let w2 := world_after (log_request (lib := Sample.lib) env Sample.cfg second) w1 in
  let d1 := datetime_now env (clock w) in
  let d2 := datetime_now env (clock w1) in
  let p := log_file_of Sample.cfg d1 in
  same_day d1 d2
  /\ append_fault env p = None
  /\ fs w2 !! p
     = Some (default [] (fs w !! p)
               ++ (json_dumps (H := Sample.lib) first ++ [10%N])
               ++ (json_dumps (H := Sample.lib) second ++ [10%N]))
  /\ forall q, q <> p -> fs w2 !! q = fs w !! q.
Proof.
  intros env first second w w1 w2 d1 d2 p.
  assert (Hd : same_day d1 d2) by (repeat split).
  split; [exact Hd|]. split; [reflexivity|].
  exact (same_day_writes_share_a_file (lib := Sample.lib) env Sample.cfg
           first second w w1 Hd eq_refl eq_refl).
Defined.

(** X10, witness. *)
Lemma relayed_response_was_logged_witness :
  let w := Sample.world_with Sample.body_blocks in
  let self := Sample.handler_for Sample.body_blocks in
  let env := Sample.env_ok Sample.response_ok in
  let w' := world_after
              (proxy_request (lib := Sample.lib) env Sample.cfg self (u "POST")) w in
  sent w w' = relay_events (H := Sample.lib)
                (Response.status_code Sample.response_ok)
                (Response.headers Sample.response_ok)
                (Response.content Sample.response_ok)
  /\ exists rq r,
       one_entry_appended (H := Sample.lib) w w'
         (log_file_of Sample.cfg (write_date env w))
         (entry_of env Sample.cfg self w rq r)
       /\ Response.status_code r = Response.status_code Sample.response_ok
       /\ Response.content r = Response.content Sample.response_ok.
Proof.
  intros w self env w'.
  assert (H : sent w w' = relay_events (H := Sample.lib)
                            (Response.status_code Sample.response_ok)
                            (Response.headers Sample.response_ok)
                            (Response.content Sample.response_ok))
    by (vm_compute; reflexivity).
  split; [exact H|].
  exact (relayed_response_was_logged (lib := Sample.lib) env Sample.cfg self
           (u "POST") w Sample.response_ok H).
Defined.

(** X12, witness: the response with the euro sign in a header. *)
Lemma status_lines_of_a_request_witness :
  let w := Sample.world_with Sample.body_blocks in
  let self := Sample.handler_for Sample.body_blocks in
  let env := Sample.env_ok Sample3.response_euro in
  let m := proxy_request (lib := Sample.lib) env Sample.cfg self (u "POST") in
  result_of m w = Ok tt
  /\ filter (fun ev => is_status ev = true) (sent w (world_after m w))
     = [SendResponse 200; SendResponse 502]
  /\ exists codes,
       filter (fun ev => is_status ev = true) (sent w (world_after m w))
       = map SendResponse codes
       /\ (codes = [502] \/
           exists response,
             upstream_returned w (world_after m w) response /\
             (codes = [Response.status_code response] \/
              codes = [Response.status_code response; 502])).
Proof.
  intros w self env m.
  assert (H : result_of m w = Ok tt) by (vm_compute; reflexivity).
  split; [exact H|]. split; [vm_compute; reflexivity|].
  exact (status_lines_of_a_request (lib := Sample.lib) env Sample.cfg self
           (u "POST") w H).
Defined.

(** X13, witness: the upstream is down, the project is named default. *)
Lemma health_check_answers_witness :
  let self := {| path := u "/health"; headers := [(u "Host", u "localhost:8000")] |} in
  let w := Sample.world_with Sample.body_array in
  let m := do_GET (lib := Sample.lib) Sample.env_refused Sample.cfg self in
  Forall unescaped (PROJECT_NAME Sample.cfg)
  /\ result_of m w = Ok tt
  /\ sent w (world_after m w)
     = [SendResponse 200;
        SendHeader (u "Content-Type") (u "application/json");
        EndHeaders;
        WfileWrite
          (map byte_of
             (u "{" ++ quoted (u "status") ++ u ": " ++ quoted (u "ok")
                ++ u ", " ++ quoted (u "project") ++ u ": "
                ++ quoted (u "default") ++ u "}"))]
  /\ attempts w (world_after m w) = []
  /\ fs (world_after m w) = fs w
  /\ rfile (world_after m w) = rfile w.
Proof.
  intros self w m.
  assert (Hp : Forall unescaped (PROJECT_NAME Sample.cfg))
    by (by apply literal_unescaped).
  split; [exact Hp|].
  exact (health_check_answers (lib := Sample.lib) Sample.env_refused Sample.cfg
           self w eq_refl Hp).
Defined.

(** X14, witness: the upstream sent content-length 999 and content-encoding gzip. *)
Lemma one_content_length_is_sent_witness :
  let w := Sample.world_with Sample.body_blocks in
  let self := Sample.handler_for Sample.body_blocks in
  let env := Sample.env_ok Sample.response_ok in
  let w' := world_after
              (proxy_request (lib := Sample.lib) env Sample.cfg self (u "POST")) w in
  lower_content_length (H := Sample.lib)
  /\ upstream_returned w w' Sample.response_ok
  /\ append_fault env (log_file_of Sample.cfg (write_date env w)) = None
  /\ summary_error (lib := Sample.lib) env self (u "POST") w Sample.response_ok
     = None
  /\ header_failure (relayed_headers (lib := Sample.lib)
                       (Response.headers Sample.response_ok)) = None
  /\ filter (fun kv : str * str =>
               kv.1 ∈ [u "transfer-encoding"; u "content-encoding";
                       u "content-length"])
            (omap (lowered_header (H := Sample.lib)) (sent w w'))
     = [(u "content-length", u "95")].
Proof.
  intros w self env w'.
  assert (Hl : lower_content_length (H := Sample.lib)) by reflexivity.
  assert (Hup : upstream_returned w w' Sample.response_ok)
    by (eexists; vm_compute; apply list_elem_of_here).
  assert (Hprint : summary_error (lib := Sample.lib) env self (u "POST") w
                     Sample.response_ok = None)
    by (vm_compute; reflexivity).
  assert (Hhdr : header_failure (relayed_headers (lib := Sample.lib)
                                   (Response.headers Sample.response_ok)) = None)
    by (vm_compute; reflexivity).
  split; [exact Hl|]. split; [exact Hup|]. split; [reflexivity|].
  split; [exact Hprint|]. split; [exact Hhdr|].
  exact (one_content_length_is_sent (lib := Sample.lib) env Sample.cfg self
           (u "POST") w Sample.response_ok Hl Hup eq_refl Hprint Hhdr).
Defined.

(** X15, witness: the body [[1]]. *)
Lemma request_parse_escapes_witness :
  let e := Exn AttributeError (u "'list' object has no attribute 'get'") in
  parse_request (H := Sample.lib) Sample.body_array = Raise e
  /\ is_JSONDecodeError e = false
  /\ (json_loads (PyLib := Sample.lib) Sample.body_array = Raise e \/
      (exists v, json_loads (PyLib := Sample.lib) Sample.body_array = Ok v) /\
      (exn_cls e = AttributeError \/ exn_cls e = TypeError \/
       exn_cls e = KeyError)).
Proof.
  intros e. split; [reflexivity|].
  exact (request_parse_escapes (lib := Sample.lib) Sample.body_array e eq_refl).
Defined.


(** X17, witness: 23:59:58 and 23:59:59 on 1 March 2026. *)
Lemma one_log_file_per_day_witness :
  let d1 := Sample.evening 0 in
  let d2 := Sample.evening 1 in
  valid_datetime d1 /\ valid_datetime d2
  /\ (log_file_of Sample.cfg d1 = log_file_of Sample.cfg d2 <-> same_day d1 d2).
Proof.
  intros d1 d2.
  assert (V1 : valid_datetime d1) by (vm_compute; repeat split; discriminate).
  assert (V2 : valid_datetime d2) by (vm_compute; repeat split; discriminate).
  split; [exact V1|]. split; [exact V2|].
  exact (one_log_file_per_day Sample.cfg d1 d2 V1 V2).
Defined.
